(** * VectorBrain: the chat and document client of rag-frontend/src/App.jsx

    A shallow embedding of the React component [App]: its state hooks and
    refs become one record, every handler becomes a function on that
    record, and the platform functions the handlers call ([JSON.parse],
    [JSON.stringify], [String.prototype.trim], string concatenation) are
    modelled next to them.

    Modelling conventions.
    - A JavaScript string is its sequence of UTF-16 code units.
    - A handler runs to completion and its state updates are applied, in
      the order they were issued, before the next handler runs.  The
      functional updaters of [setMessages] copy the array and mutate its
      last object; nothing but the transcript itself refers to these
      objects, so the update is modelled as a list update.
    - An [async] function is modelled from its call to its last
      statement, the outcome of every [fetch] being an argument.
    - [console.log] and [console.error] are not recorded. *)

From Stdlib Require Import NArith ZArith Ascii String Lia.
From stdpp Require Import base numbers list strings.

(** ** JavaScript strings *)

Module JsString.

Definition code_unit := N.
Definition jsstring := list code_unit.

(** An ASCII literal as a JavaScript string. *)
Definition str (s : string) : jsstring :=
  N_of_ascii <$> list_ascii_of_string s.

(** Strict equality of two strings. *)
Definition eqb (a b : jsstring) : bool := bool_decide (a = b).

(** WhiteSpace and LineTerminator code points, those that
    [String.prototype.trim] removes. *)
Definition is_white_space (c : code_unit) : bool :=
  ((9 <=? c) && (c <=? 13) || (c =? 32) || (c =? 160) || (c =? 5760)
   || (8192 <=? c) && (c <=? 8202) || (c =? 8232) || (c =? 8233)
   || (c =? 8239) || (c =? 8287) || (c =? 12288) || (c =? 65279))%N.

Fixpoint trim_start (s : jsstring) : jsstring :=
  match s with
  | c :: r => if is_white_space c then trim_start r else s
  | [] => []
  end.

Definition trim_end (s : jsstring) : jsstring :=
  reverse (trim_start (reverse s)).

(** [s.trim()] *)
Definition trim (s : jsstring) : jsstring := trim_end (trim_start s).

(** A string is falsy exactly when it is empty. *)
Definition truthy (s : jsstring) : bool :=
  match s with [] => false | _ => true end.

End JsString.
Export JsString.

(** ** JavaScript values that JSON can carry *)

#[warnings="-register-all"] Inductive value : Type :=
| VUndefined
| VNull
| VBool (b : bool)
| VNumber (literal : jsstring)
| VString (s : jsstring)
| VArray (elements : list value)
| VObject (members : list (jsstring * value)).

(** A number is kept as the literal it was read from: the handlers never
    compute with one, they can only turn it into text. *)

(** Own property of an object built by [JSON.parse]: a later member of
    the same name has overwritten an earlier one. *)
Fixpoint own_property (members : list (jsstring * value)) (key : jsstring)
  : option value :=
  match members with
  | [] => None
  | (k, v) :: rest =>
      match own_property rest key with
      | Some w => Some w
      | None => if JsString.eqb k key then Some v else None
      end
  end.

(** [v.key] for a key that no prototype defines ([type], [data]).
    [None] is the TypeError of reading a property of null or undefined. *)
Definition get (v : value) (key : jsstring) : option value :=
  match v with
  | VUndefined | VNull => None
  | VObject members => Some (default VUndefined (own_property members key))
  | _ => Some VUndefined
  end.

(** [v === s] for a string [s]. *)
Definition is_string (v : value) (s : jsstring) : bool :=
  match v with
  | VString s' => JsString.eqb s' s
  | _ => false
  end.

(** ** JSON.parse *)

Module Json.

Inductive presult (A : Type) : Type :=
| Parsed (a : A) (rest : jsstring)
| Invalid
| OutOfFuel.
Arguments Parsed {A} a rest.
Arguments Invalid {A}.
Arguments OutOfFuel {A}.

Definition is_json_space (c : code_unit) : bool :=
  ((c =? 32) || (c =? 9) || (c =? 10) || (c =? 13))%N.

Fixpoint skip_ws (s : jsstring) : jsstring :=
  match s with
  | c :: r => if is_json_space c then skip_ws r else s
  | [] => []
  end.

Definition is_digit (c : code_unit) : bool := ((48 <=? c) && (c <=? 57))%N.

Definition hex_digit (c : code_unit) : option N :=
  if is_digit c then Some (c - 48)%N
  else if ((65 <=? c) && (c <=? 70))%N then Some (c - 55)%N
  else if ((97 <=? c) && (c <=? 102))%N then Some (c - 87)%N
  else None.

Definition hex4 (a b c d : code_unit) : option code_unit :=
  match hex_digit a, hex_digit b, hex_digit c, hex_digit d with
  | Some x, Some y, Some z, Some w => Some (((x * 16 + y) * 16 + z) * 16 + w)%N
  | _, _, _, _ => None
  end.

(** The character after a backslash, [u] apart. *)
Definition simple_escape (c : code_unit) : option code_unit :=
  if (c =? 34)%N then Some 34%N            (* quotation mark *)
  else if (c =? 92)%N then Some 92%N       (* reverse solidus *)
  else if (c =? 47)%N then Some 47%N       (* solidus *)
  else if (c =? 98)%N then Some 8%N        (* b: backspace *)
  else if (c =? 102)%N then Some 12%N      (* f: form feed *)
  else if (c =? 110)%N then Some 10%N      (* n: line feed *)
  else if (c =? 114)%N then Some 13%N      (* r: carriage return *)
  else if (c =? 116)%N then Some 9%N       (* t: tab *)
  else None.

(** The characters of a string after its opening quote, up to and
    including the closing quote. *)
Fixpoint string_chars (s : jsstring) : option (jsstring * jsstring) :=
  match s with
  | [] => None
  | c :: r =>
      if (c =? 34)%N then Some ([], r)
      else if (c =? 92)%N then
        match r with
        | [] => None
        | e :: r1 =>
            if (e =? 117)%N then
              match r1 with
              | h1 :: h2 :: h3 :: h4 :: r2 =>
                  match hex4 h1 h2 h3 h4 with
                  | Some u =>
                      match string_chars r2 with
                      | Some (cs, rest) => Some (u :: cs, rest)
                      | None => None
                      end
                  | None => None
                  end
              | _ => None
              end
            else
              match simple_escape e with
              | Some u =>
                  match string_chars r1 with
                  | Some (cs, rest) => Some (u :: cs, rest)
                  | None => None
                  end
              | None => None
              end
        end
      else if (c <? 32)%N then None
      else
        match string_chars r with
        | Some (cs, rest) => Some (c :: cs, rest)
        | None => None
        end
  end.

Fixpoint digits (s : jsstring) : jsstring * jsstring :=
  match s with
  | c :: r =>
      if is_digit c then let '(ds, rest) := digits r in (c :: ds, rest)
      else ([], s)
  | [] => ([], [])
  end.

(** [0], or a non-zero digit followed by digits. *)
Definition integer_part (s : jsstring) : option (jsstring * jsstring) :=
  match s with
  | c :: r =>
      if (c =? 48)%N then Some ([c], r)
      else if is_digit c then let '(ds, rest) := digits r in Some (c :: ds, rest)
      else None
  | [] => None
  end.

(** An optional fraction: a dot and at least one digit. *)
Definition fraction_part (s : jsstring) : option (jsstring * jsstring) :=
  match s with
  | c :: r =>
      if (c =? 46)%N then
        match digits r with
        | ([], _) => None
        | (ds, rest) => Some (c :: ds, rest)
        end
      else Some ([], s)
  | [] => Some ([], [])
  end.

(** An optional exponent: [e] or [E], an optional sign, at least one
    digit. *)
Definition exponent_part (s : jsstring) : option (jsstring * jsstring) :=
  match s with
  | c :: r =>
      if ((c =? 101) || (c =? 69))%N then
        let '(sign, r1) :=
          match r with
          | d :: r' => if ((d =? 43) || (d =? 45))%N then ([d], r') else ([], r)
          | [] => ([], r)
          end in
        match digits r1 with
        | ([], _) => None
        | (ds, rest) => Some (c :: sign ++ ds, rest)
        end
      else Some ([], s)
  | [] => Some ([], [])
  end.

Definition number (s : jsstring) : option (jsstring * jsstring) :=
  let '(minus, s1) :=
    match s with
    | c :: r => if (c =? 45)%N then ([c], r) else ([], s)
    | [] => ([], s)
    end in
  match integer_part s1 with
  | None => None
  | Some (i, s2) =>
      match fraction_part s2 with
      | None => None
      | Some (f, s3) =>
          match exponent_part s3 with
          | None => None
          | Some (e, s4) => Some (minus ++ i ++ f ++ e, s4)
          end
      end
  end.

Fixpoint strip_prefix (p s : jsstring) : option jsstring :=
  match p, s with
  | [], _ => Some s
  | a :: p', b :: s' => if (a =? b)%N then strip_prefix p' s' else None
  | _ :: _, [] => None
  end.

Definition literal (s : jsstring) : presult value :=
  match strip_prefix (str "true") s with
  | Some r => Parsed (VBool true) r
  | None =>
      match strip_prefix (str "false") s with
      | Some r => Parsed (VBool false) r
      | None =>
          match strip_prefix (str "null") s with
          | Some r => Parsed VNull r
          | None => Invalid
          end
      end
  end.

(** A value at the head of [s] (no leading white space), the elements
    of an array after its opening bracket and the members of an object
    after its opening brace.  [fuel] bounds the depth of the calls; see
    [JsonFacts.parse_fuel]. *)
Fixpoint parse_value (fuel : nat) (s : jsstring) : presult value :=
  match fuel with
  | O => OutOfFuel
  | S fuel =>
      match s with
      | [] => Invalid
      | c :: r =>
          if (c =? 34)%N then
            match string_chars r with
            | Some (cs, rest) => Parsed (VString cs) rest
            | None => Invalid
            end
          else if (c =? 91)%N then
            match skip_ws r with
            | d :: r' =>
                if (d =? 93)%N then Parsed (VArray []) r'
                else parse_elements fuel (d :: r') []
            | [] => Invalid
            end
          else if (c =? 123)%N then
            match skip_ws r with
            | d :: r' =>
                if (d =? 125)%N then Parsed (VObject []) r'
                else parse_members fuel (d :: r') []
            | [] => Invalid
            end
          else if (c =? 45)%N || is_digit c then
            match number s with
            | Some (lit, rest) => Parsed (VNumber lit) rest
            | None => Invalid
            end
          else literal s
      end
  end
with parse_elements (fuel : nat) (s : jsstring) (acc : list value)
  : presult value :=
  match fuel with
  | O => OutOfFuel
  | S fuel =>
      match parse_value fuel (skip_ws s) with
      | Parsed v r =>
          match skip_ws r with
          | d :: r' =>
              if (d =? 44)%N then parse_elements fuel r' (acc ++ [v])
              else if (d =? 93)%N then Parsed (VArray (acc ++ [v])) r'
              else Invalid
          | [] => Invalid
          end
      | Invalid => Invalid
      | OutOfFuel => OutOfFuel
      end
  end
with parse_members (fuel : nat) (s : jsstring)
       (acc : list (jsstring * value)) : presult value :=
  match fuel with
  | O => OutOfFuel
  | S fuel =>
      match skip_ws s with
      | q :: r0 =>
          if (q =? 34)%N then
            match string_chars r0 with
            | Some (key, r1) =>
                match skip_ws r1 with
                | colon :: r2 =>
                    if (colon =? 58)%N then
                      match parse_value fuel (skip_ws r2) with
                      | Parsed v r =>
                          match skip_ws r with
                          | d :: r' =>
                              if (d =? 44)%N then
                                parse_members fuel r' (acc ++ [(key, v)])
                              else if (d =? 125)%N then
                                Parsed (VObject (acc ++ [(key, v)])) r'
                              else Invalid
                          | [] => Invalid
                          end
                      | Invalid => Invalid
                      | OutOfFuel => OutOfFuel
                      end
                    else Invalid
                | [] => Invalid
                end
            | None => Invalid
            end
          else Invalid
      | [] => Invalid
      end
  end.

(** Fuel that [parse_value] never exhausts on [s]. *)
Definition enough_fuel (s : jsstring) : nat := 2 * length s + 1.

(** A whole text: one value between optional white space. *)
Definition parse_text (s : jsstring) : presult value :=
  match parse_value (enough_fuel s) (skip_ws s) with
  | Parsed v r =>
      match skip_ws r with
      | [] => Parsed v []
      | _ :: _ => Invalid
      end
  | Invalid => Invalid
  | OutOfFuel => OutOfFuel
  end.

(** [JSON.parse(text)]; [None] is the SyntaxError it throws. *)
Definition parse (text : jsstring) : option value :=
  match parse_text text with
  | Parsed v _ => Some v
  | _ => None
  end.

End Json.

(** ** JSON.stringify of a string *)

Definition is_leading_surrogate (c : code_unit) : bool :=
  ((55296 <=? c) && (c <=? 56319))%N.
Definition is_trailing_surrogate (c : code_unit) : bool :=
  ((56320 <=? c) && (c <=? 57343))%N.

Definition hex_char (n : N) : code_unit :=
  if (n <? 10)%N then (48 + n)%N else (87 + n)%N.

(** UnicodeEscape: a backslash, [u] and four lower-case hex digits. *)
Definition unicode_escape (c : code_unit) : jsstring :=
  [92; 117; hex_char (c / 4096 mod 16); hex_char (c / 256 mod 16);
   hex_char (c / 16 mod 16); hex_char (c mod 16)]%N.

Definition quote_unit (c : code_unit) : jsstring :=
  if (c =? 8)%N then str "\b"
  else if (c =? 9)%N then str "\t"
  else if (c =? 10)%N then str "\n"
  else if (c =? 12)%N then str "\f"
  else if (c =? 13)%N then str "\r"
  else if (c =? 34)%N then [92; 34]%N
  else if (c =? 92)%N then [92; 92]%N
  else if (c <? 32)%N then unicode_escape c
  else [c].

(** The characters between the quotes of QuoteJSONString: a surrogate
    pair is copied, a lone surrogate is escaped. *)
Fixpoint quote_chars (s : jsstring) : jsstring :=
  match s with
  | [] => []
  | c :: r =>
      if is_leading_surrogate c then
        match r with
        | d :: r' =>
            if is_trailing_surrogate d then c :: d :: quote_chars r'
            else unicode_escape c ++ quote_chars r
        | [] => unicode_escape c
        end
      else if is_trailing_surrogate c then unicode_escape c ++ quote_chars r
      else quote_unit c ++ quote_chars r
  end.

Definition quote (s : jsstring) : jsstring :=
  [34%N] ++ quote_chars s ++ [34%N].

(** [JSON.stringify({ message: s })] *)
Definition stringify_message (s : jsstring) : jsstring :=
  str "{" ++ quote (str "message") ++ str ":" ++ quote s ++ str "}".

(** ** The state of the component *)

Inductive role : Set := assistant | user | error.

Module Message.
(** An entry of the transcript.  Only the entry that [start] appends has
    an [isStreaming] property; [None] is its absence. *)
Record t : Type := make {
  type : role;
  content : value;
  isStreaming : option bool
}.
End Message.

Inductive upload_status : Set := uploading | success | failed.

Record UploadProgress : Type := {
  filename : jsstring;
  status : upload_status
}.

Inductive notice_kind : Set := notice_error | notice_success | notice_loading.

(** A call of [antMessage.error], [.success] or [.loading]. *)
Record Notice : Type := {
  kind : notice_kind;
  text : jsstring
}.

Inductive request : Type :=
| GET_documents
| POST_upload (file_name : jsstring)
| DELETE_documents (file_name : jsstring)
| POST_chat_clear.

Inductive tab : Set := tab_chat | tab_documents.

Record State : Type := {
  (* useState *)
  messages : list Message.t;
  currentMessage : jsstring;
  isConnected : bool;
  isStreaming : bool;
  documents : value;
  uploadProgress : option UploadProgress;
  activeTab : tab;
  (* useRef *)
  currentResponseRef : jsstring;
  (* what the component has done to the outside *)
  sent : list jsstring;          (* websocketRef.current.send *)
  requests : list request;       (* fetch *)
  notices : list Notice;         (* antMessage *)
  timers : list N                (* setTimeout(() => setUploadProgress(null), ms) *)
}.

Definition initial : State := {|
  messages := [];
  currentMessage := [];
  isConnected := false;
  isStreaming := false;
  documents := VArray [];
  uploadProgress := None;
  activeTab := tab_chat;
  currentResponseRef := [];
  sent := [];
  requests := [];
  notices := [];
  timers := []
|}.

(** The state setters of the hooks, and the writes to the refs and to the
    outside. *)
Definition setMessages (f : list Message.t -> list Message.t) (st : State) : State :=
  {| messages := f (messages st); currentMessage := currentMessage st;
     isConnected := isConnected st; isStreaming := isStreaming st;
     documents := documents st; uploadProgress := uploadProgress st;
     activeTab := activeTab st; currentResponseRef := currentResponseRef st;
     sent := sent st; requests := requests st; notices := notices st;
     timers := timers st |}.

Definition setCurrentMessage (s : jsstring) (st : State) : State :=
  {| messages := messages st; currentMessage := s;
     isConnected := isConnected st; isStreaming := isStreaming st;
     documents := documents st; uploadProgress := uploadProgress st;
     activeTab := activeTab st; currentResponseRef := currentResponseRef st;
     sent := sent st; requests := requests st; notices := notices st;
     timers := timers st |}.

Definition setIsConnected (b : bool) (st : State) : State :=
  {| messages := messages st; currentMessage := currentMessage st;
     isConnected := b; isStreaming := isStreaming st;
     documents := documents st; uploadProgress := uploadProgress st;
     activeTab := activeTab st; currentResponseRef := currentResponseRef st;
     sent := sent st; requests := requests st; notices := notices st;
     timers := timers st |}.

Definition setIsStreaming (b : bool) (st : State) : State :=
  {| messages := messages st; currentMessage := currentMessage st;
     isConnected := isConnected st; isStreaming := b;
     documents := documents st; uploadProgress := uploadProgress st;
     activeTab := activeTab st; currentResponseRef := currentResponseRef st;
     sent := sent st; requests := requests st; notices := notices st;
     timers := timers st |}.

Definition setDocuments (docs : value) (st : State) : State :=
  {| messages := messages st; currentMessage := currentMessage st;
     isConnected := isConnected st; isStreaming := isStreaming st;
     documents := docs; uploadProgress := uploadProgress st;
     activeTab := activeTab st; currentResponseRef := currentResponseRef st;
     sent := sent st; requests := requests st; notices := notices st;
     timers := timers st |}.

Definition setUploadProgress (p : option UploadProgress) (st : State) : State :=
  {| messages := messages st; currentMessage := currentMessage st;
     isConnected := isConnected st; isStreaming := isStreaming st;
     documents := documents st; uploadProgress := p;
     activeTab := activeTab st; currentResponseRef := currentResponseRef st;
     sent := sent st; requests := requests st; notices := notices st;
     timers := timers st |}.

Definition setActiveTab (t : tab) (st : State) : State :=
  {| messages := messages st; currentMessage := currentMessage st;
     isConnected := isConnected st; isStreaming := isStreaming st;
     documents := documents st; uploadProgress := uploadProgress st;
     activeTab := t; currentResponseRef := currentResponseRef st;
     sent := sent st; requests := requests st; notices := notices st;
     timers := timers st |}.

Definition setCurrentResponse (s : jsstring) (st : State) : State :=
  {| messages := messages st; currentMessage := currentMessage st;
     isConnected := isConnected st; isStreaming := isStreaming st;
     documents := documents st; uploadProgress := uploadProgress st;
     activeTab := activeTab st; currentResponseRef := s;
     sent := sent st; requests := requests st; notices := notices st;
     timers := timers st |}.

Definition websocket_send (payload : jsstring) (st : State) : State :=
  {| messages := messages st; currentMessage := currentMessage st;
     isConnected := isConnected st; isStreaming := isStreaming st;
     documents := documents st; uploadProgress := uploadProgress st;
     activeTab := activeTab st; currentResponseRef := currentResponseRef st;
     sent := sent st ++ [payload]; requests := requests st;
     notices := notices st; timers := timers st |}.

Definition issue (r : request) (st : State) : State :=
  {| messages := messages st; currentMessage := currentMessage st;
     isConnected := isConnected st; isStreaming := isStreaming st;
     documents := documents st; uploadProgress := uploadProgress st;
     activeTab := activeTab st; currentResponseRef := currentResponseRef st;
     sent := sent st; requests := requests st ++ [r];
     notices := notices st; timers := timers st |}.

Definition antMessage (k : notice_kind) (s : jsstring) (st : State) : State :=
  {| messages := messages st; currentMessage := currentMessage st;
     isConnected := isConnected st; isStreaming := isStreaming st;
     documents := documents st; uploadProgress := uploadProgress st;
     activeTab := activeTab st; currentResponseRef := currentResponseRef st;
     sent := sent st; requests := requests st;
     notices := notices st ++ [{| kind := k; text := s |}];
     timers := timers st |}.

Definition setTimeout (ms : N) (st : State) : State :=
  {| messages := messages st; currentMessage := currentMessage st;
     isConnected := isConnected st; isStreaming := isStreaming st;
     documents := documents st; uploadProgress := uploadProgress st;
     activeTab := activeTab st; currentResponseRef := currentResponseRef st;
     sent := sent st; requests := requests st; notices := notices st;
     timers := timers st ++ [ms] |}.

(** ** The handlers *)

Inductive exception : Set := SyntaxError | TypeError.

(** How a handler ends: it returns, or an exception leaves it. *)
Inductive completion : Set := Normal | Throw (e : exception).

Inductive fetch_result : Type :=
| NetworkError                              (* the promise of fetch rejects *)
| Response (status : N) (body : jsstring).  (* it resolves *)

(** [response.ok] *)
Definition ok (status : N) : bool := ((200 <=? status) && (status <=? 299))%N.

Record File : Type := { name : jsstring }.

Definition role_eqb (a b : role) : bool :=
  match a, b with
  | assistant, assistant | user, user | error, error => true
  | _, _ => false
  end.

(** Truthiness of the [isStreaming] property of an entry. *)
Definition streaming (m : Message.t) : bool :=
  match Message.isStreaming m with
  | Some true => true
  | _ => false
  end.

Definition set_content (s : jsstring) (m : Message.t) : Message.t :=
  Message.make (Message.type m) (VString s) (Message.isStreaming m).

Definition set_isStreaming (b : bool) (m : Message.t) : Message.t :=
  Message.make (Message.type m) (Message.content m) (Some b).

(** The updater of the [token] case, [text] being the value of
    [currentResponseRef.current].  On the empty array the index
    [length - 1] is [-1] in the source and [0] here: both read nothing. *)
Definition token_update (text : jsstring) (prev : list Message.t)
  : list Message.t :=
  let newMessages := prev in
  match newMessages !! (length newMessages - 1) with
  | Some lastMessage =>
      if role_eqb (Message.type lastMessage) assistant && streaming lastMessage
      then alter (set_content text) (length newMessages - 1) newMessages
      else newMessages
  | None => newMessages
  end.

(** The updater of the [complete] case. *)
Definition complete_update (prev : list Message.t) : list Message.t :=
  let newMessages := prev in
  match newMessages !! (length newMessages - 1) with
  | Some lastMessage =>
      if role_eqb (Message.type lastMessage) assistant
      then alter (set_isStreaming false) (length newMessages - 1) newMessages
      else newMessages
  | None => newMessages
  end.

Definition onopen (st : State) : State := setIsConnected true st.

Definition onclose (st : State) : State :=
  setIsStreaming false (setIsConnected false st).

Definition onerror (st : State) : State := setIsConnected false st.

(** The text JavaScript prints for the number that a JSON numeric
    literal denotes.  Doubles are not modelled: the handlers are read
    for every such printing. *)
Class NumberPrinter : Type := Number_toString : jsstring -> jsstring.

(** The printing that returns the literal as it stands.  It is what
    JavaScript prints for literals such as [7] or [2.5], and it stands in
    where a printing has to be named but no number is printed. *)
Definition literal_printer : NumberPrinter := fun lit => lit.

Section Client.

Context {printer : NumberPrinter}.

(** [s + v] with a string on the left appends ToString of [v]. *)
Fixpoint to_string (v : value) : jsstring :=
  match v with
  | VUndefined => str "undefined"
  | VNull => str "null"
  | VBool true => str "true"
  | VBool false => str "false"
  | VNumber lit => Number_toString lit
  | VString s => s
  | VArray elements =>
      (fix join (l : list value) : jsstring :=
         match l with
         | [] => []
         | e :: rest =>
             match e with VUndefined | VNull => [] | _ => to_string e end
             ++ match rest with [] => [] | _ :: _ => str "," ++ join rest end
         end) elements
  | VObject _ => str "[object Object]"
  end.

Definition on_start (st : State) : State :=
  setMessages (fun prev => prev ++ [Message.make assistant (VString []) (Some true)])
    (setCurrentResponse []
      (setIsStreaming true st)).

Definition on_token (data_data : value) (st : State) : State :=
  let st := setCurrentResponse (currentResponseRef st ++ to_string data_data) st in
  setMessages (token_update (currentResponseRef st)) st.

Definition on_complete (st : State) : State :=
  setMessages complete_update (setIsStreaming false st).

Definition on_error (data_data : value) (st : State) : State :=
  antMessage notice_error (str "Error occurred while processing your message")
    (setMessages (fun prev => prev ++ [Message.make error data_data None])
      (setIsStreaming false st)).

(** [websocketRef.current.onmessage], [event_data] being [event.data]. *)
Definition onmessage (event_data : jsstring) (st : State) : completion * State :=
  match Json.parse event_data with
  | None => (Throw SyntaxError, st)
  | Some data =>
      match get data (str "type") with
      | None => (Throw TypeError, st)
      | Some ty =>
          if is_string ty (str "start") then (Normal, on_start st)
          else if is_string ty (str "token") then
            match get data (str "data") with
            | Some d => (Normal, on_token d st)
            | None => (Throw TypeError, st)
            end
          else if is_string ty (str "complete") then (Normal, on_complete st)
          else if is_string ty (str "error") then
            match get data (str "data") with
            | Some d => (Normal, on_error d st)
            | None => (Throw TypeError, st)
            end
          else (Normal, st)
      end
  end.

(** The state after an inbound message: an exception that leaves the
    handler is reported by the browser and the component lives on. *)
Definition deliver (st : State) (event_data : jsstring) : State :=
  snd (onmessage event_data st).

(** The state after a sequence of inbound messages, first to last. *)
Definition run (st : State) (events : list jsstring) : State :=
  foldl deliver st events.

End Client.

Definition sendMessage (st : State) : State :=
  if negb (truthy (trim (currentMessage st)))
     || negb (isConnected st) || isStreaming st
  then st
  else
    setCurrentMessage []
      (websocket_send (stringify_message (currentMessage st))
        (setMessages
           (fun prev => prev ++ [Message.make user (VString (currentMessage st)) None])
           st)).

Definition fetchDocuments (response : fetch_result) (st : State) : State :=
  let st := issue GET_documents st in
  match response with
  | NetworkError => antMessage notice_error (str "Failed to fetch documents") st
  | Response _ body =>
      match Json.parse body with             (* await response.json() *)
      | Some docs => setDocuments docs st
      | None => antMessage notice_error (str "Failed to fetch documents") st
      end
  end.

(** [handleFileUpload], [files] being [event.target.files].  The reset of
    the input element at its end is not recorded. *)
Definition handleFileUpload (files : list File)
    (upload listing : fetch_result) (st : State) : State :=
  match files !! 0 with
  | None => st
  | Some file =>
      let st := setUploadProgress
                  (Some {| filename := name file; status := uploading |}) st in
      let st := antMessage notice_loading
                  (str "Uploading " ++ name file ++ str "...") st in
      let st := issue (POST_upload (name file)) st in
      let catch st :=
        setTimeout 3000
          (antMessage notice_error (str "Upload failed!")
            (setUploadProgress
               (Some {| filename := name file; status := failed |}) st)) in
      match upload with
      | NetworkError => catch st
      | Response status _ =>
          if ok status then
            let st := setUploadProgress
                        (Some {| filename := name file; status := success |}) st in
            let st := fetchDocuments listing st in
            let st := antMessage notice_success
                        (str "File uploaded successfully!") st in
            setTimeout 3000 st
          else catch st
      end
  end.

Definition deleteDocument (file_name : jsstring)
    (deletion listing : fetch_result) (st : State) : State :=
  let st := issue (DELETE_documents file_name) st in
  match deletion with
  | NetworkError => antMessage notice_error (str "Failed to delete document") st
  | Response status _ =>
      if ok status then
        antMessage notice_success (str "Document deleted successfully")
          (fetchDocuments listing st)
      else antMessage notice_error (str "Failed to delete document") st
  end.

Definition clearChat (response : fetch_result) (st : State) : State :=
  let st := issue POST_chat_clear st in
  match response with
  | NetworkError => antMessage notice_error (str "Failed to clear chat") st
  | Response _ _ =>
      antMessage notice_success (str "Chat cleared successfully")
        (setMessages (fun _ => []) st)
  end.

(** ** The vocabulary of the claims *)

(** What an inbound message is, as far as the handler will look: the
    values of [data.type] and [data.data] of the parsed envelope. *)
Definition envelope_type (event_data : jsstring) : option value :=
  Json.parse event_data ≫= λ data, get data (str "type").

Definition envelope_data (event_data : jsstring) : option value :=
  Json.parse event_data ≫= λ data, get data (str "data").

(** The message is an envelope of the given type. *)
Definition is_event (kind : string) (event_data : jsstring) : bool :=
  match envelope_type event_data with
  | Some ty => is_string ty (str kind)
  | None => false
  end.

(** The message is a [token] envelope that carries the string [fragment]. *)
Definition is_token (event_data fragment : jsstring) : Prop :=
  is_event "token" event_data = true
  /\ envelope_data event_data = Some (VString fragment).

(** An envelope as the backend writes it: [{ type, data? }]. *)
Definition envelope (kind : string) (data : option jsstring) : jsstring :=
  str "{" ++ quote (str "type") ++ str ":" ++ quote (str kind)
  ++ match data with
     | Some d => str "," ++ quote (str "data") ++ str ":" ++ quote d
     | None => []
     end
  ++ str "}".

(** ** The transcript invariant *)

Definition is_assistant (m : Message.t) : bool :=
  role_eqb (Message.type m) assistant.

(** The number of entries whose streaming flag is set. *)
Fixpoint streaming_count (l : list Message.t) : nat :=
  match l with
  | [] => 0
  | m :: r => (if streaming m then 1 else 0) + streaming_count r
  end.

(** The index of the last entry that satisfies [p]. *)
Fixpoint last_index (p : Message.t -> bool) (l : list Message.t) : option nat :=
  match l with
  | [] => None
  | m :: r =>
      match last_index p r with
      | Some i => Some (S i)
      | None => if p m then Some 0 else None
      end
  end.

(** At most one entry is streaming, and it is the last assistant entry. *)
Definition one_streaming_last (l : list Message.t) : Prop :=
  streaming_count l <= 1
  /\ forall i m, l !! i = Some m -> streaming m = true ->
       last_index is_assistant l = Some i.

(** The last entry is an assistant entry that is streaming: the entry a
    [token] writes to. *)
Definition awaiting_tokens (l : list Message.t) : bool :=
  match last l with
  | Some m => is_assistant m && streaming m
  | None => false
  end.

Section Guard.

Context {printer : NumberPrinter}.

(** No [start] envelope of [events] arrives while an entry is streaming. *)
Fixpoint starts_when_idle (st : State) (events : list jsstring) : bool :=
  match events with
  | [] => true
  | e :: rest =>
      (if is_event "start" e
       then Nat.eqb (streaming_count (messages st)) 0 else true)
      && starts_when_idle (deliver st e) rest
  end.

End Guard.

(** ** The rest of the component *)

Record KeyEvent : Type := { key : jsstring; shiftKey : bool }.

(** [handleKeyPress].  The first component tells whether
    [e.preventDefault()] was called. *)
Definition handleKeyPress (e : KeyEvent) (st : State) : bool * State :=
  if JsString.eqb (key e) (str "Enter") && negb (shiftKey e)
  then (true, sendMessage st)
  else (false, st).

(** [connectWebSocket], [created] telling whether [new WebSocket(...)]
    returned a socket.  When it throws, no handler is installed. *)
Definition connectWebSocket (created : bool) (st : State) : State :=
  if created then st
  else antMessage notice_error (str "Failed to connect to server")
         (setIsConnected false st).

(** The effect run at mount: [connectWebSocket(); fetchDocuments()]. *)
Definition mount (created : bool) (listing : fetch_result) (st : State) : State :=
  fetchDocuments listing (connectWebSocket created st).

(** The callback that the upload handler hands to [setTimeout]. *)
Definition upload_timer (st : State) : State := setUploadProgress None st.

(** [disabled] of the Send button and of the text area, as rendered. *)
Definition send_disabled (st : State) : bool :=
  negb (isConnected st) || isStreaming st
  || negb (truthy (trim (currentMessage st))).

Definition input_disabled (st : State) : bool :=
  negb (isConnected st) || isStreaming st.

(** Every code unit of the string is white space. *)
Definition all_white_space (s : jsstring) : bool := forallb is_white_space s.

(** ** The component as a transition system *)

(** What can happen to the mounted component, one task of the event
    loop each.  An [async] handler is one step, taken when its last
    response has arrived: before that it has only issued its request. *)
Inductive action : Type :=
| Mount (created : bool) (listing : fetch_result)   (* the mount effect *)
| Inbound (event_data : jsstring)            (* onmessage *)
| SocketOpen                                 (* onopen *)
| SocketClose                                (* onclose *)
| SocketError                                (* onerror *)
| Typing (input : jsstring)                  (* TextArea onChange *)
| KeyPress (e : KeyEvent)                    (* TextArea onPressEnter *)
| ClickSend                                  (* Send onClick *)
| ClickClear (response : fetch_result)       (* Clear onClick *)
| ClickRefresh (listing : fetch_result)      (* Refresh onClick *)
| SelectFiles (files : list File) (upload listing : fetch_result)
| ClickDelete (file_name : jsstring) (deletion listing : fetch_result)
| SwitchTab (t : tab)                        (* Tabs onChange *)
| UploadTimer.                               (* the setTimeout callback *)

(** The action is a Clear that the backend answered. *)
Definition is_answered_clear (a : action) : bool :=
  match a with
  | ClickClear (Response _ _) => true
  | _ => false
  end.

Definition is_socket_open (a : action) : bool :=
  match a with
  | SocketOpen => true
  | _ => false
  end.

Section System.

Context {printer : NumberPrinter}.

Definition step (st : State) (a : action) : State :=
  match a with
  | Mount created listing => mount created listing st
  | Inbound event_data => deliver st event_data
  | SocketOpen => onopen st
  | SocketClose => onclose st
  | SocketError => onerror st
  | Typing input => setCurrentMessage input st
  | KeyPress e => snd (handleKeyPress e st)
  | ClickSend => sendMessage st
  | ClickClear response => clearChat response st
  | ClickRefresh listing => fetchDocuments listing st
  | SelectFiles files upload listing => handleFileUpload files upload listing st
  | ClickDelete file_name deletion listing =>
      deleteDocument file_name deletion listing st
  | SwitchTab t => setActiveTab t st
  | UploadTimer => upload_timer st
  end.

Definition steps (st : State) (actions : list action) : State :=
  foldl step st actions.

End System.

(** The last entry, when it is the one tokens write to, shows the
    accumulation buffer. *)
Definition buffer_shown (st : State) : Prop :=
  forall m, last (messages st) = Some m ->
    is_assistant m && streaming m = true ->
    Message.content m = VString (currentResponseRef st).

(** While the component says that a response is streaming, the last
    entry is the one tokens write to. *)
Definition flag_has_entry (st : State) : Prop :=
  isStreaming st = true -> awaiting_tokens (messages st) = true.

Definition is_text (v : value) : bool :=
  match v with
  | VString _ => true
  | _ => false
  end.

(** The shape the handlers give to an entry: an assistant entry has a
    text and a streaming flag, a user entry a text and no flag, an error
    entry no flag. *)
Definition entry_shaped (m : Message.t) : bool :=
  match Message.type m with
  | assistant => is_text (Message.content m) && bool_decide (is_Some (Message.isStreaming m))
  | user => is_text (Message.content m) && bool_decide (Message.isStreaming m = None)
  | error => bool_decide (Message.isStreaming m = None)
  end.

(** What the handlers take a response to be.  [accepted]: the upload and
    delete handlers go on only when [fetch] resolved and [response.ok]
    holds.  [listed]: [fetchDocuments] has a collection only when
    [fetch] resolved and the body is JSON. *)
Definition accepted (response : fetch_result) : bool :=
  match response with
  | NetworkError => false
  | Response status _ => ok status
  end.

Definition listed (listing : fetch_result) : option value :=
  match listing with
  | NetworkError => None
  | Response _ body => Json.parse body
  end.

(** The notification of a list that failed, if it did. *)
Definition listing_notices (listing : fetch_result) : list Notice :=
  match listed listing with
  | Some _ => []
  | None => [{| kind := notice_error; text := str "Failed to fetch documents" |}]
  end.

(** The actions of the document panel, and those of the chat panel but
    Clear. *)
Definition is_document_action (a : action) : bool :=
  match a with
  | ClickRefresh _ | SelectFiles _ _ _ | ClickDelete _ _ _ | UploadTimer => true
  | _ => false
  end.

Definition is_chat_action (a : action) : bool :=
  match a with
  | Inbound _ | SocketOpen | SocketClose | SocketError
  | Typing _ | KeyPress _ | ClickSend => true
  | _ => false
  end.

(** The texts of the user entries of a transcript, in order. *)
Definition user_text (m : Message.t) : option jsstring :=
  match Message.type m, Message.content m with
  | user, VString s => Some s
  | _, _ => None
  end.

Definition user_texts (l : list Message.t) : list jsstring := omap user_text l.

(** ** JSON.parse never runs out of fuel *)

Module JsonFacts.
Import Json.

Lemma skip_ws_length (s : jsstring) : length (skip_ws s) <= length s.
Proof.
  induction s as [|c r IH]; simpl; [lia|].
  destruct (is_json_space c); simpl; lia.
Qed.

Lemma string_chars_length (s cs rest : jsstring) :
  string_chars s = Some (cs, rest) -> length rest < length s.
Proof.
  remember (length s) as n eqn:Hn. revert s cs rest Hn.
  induction n as [n IH] using lt_wf_ind. intros s cs rest Hn H.
  destruct s as [|c r]; simpl in H; [discriminate|].
  repeat case_match; simplify_eq; simpl in *; try lia.
  all: match goal with
       | E : string_chars ?t = Some (_, ?rest) |- _ =>
           specialize (IH (length t) ltac:(simpl; lia) t _ _ eq_refl E)
       end; simpl in *; lia.
Qed.

Lemma digits_length (s ds rest : jsstring) :
  digits s = (ds, rest) -> length rest <= length s.
Proof.
  revert ds rest. induction s as [|c r IH]; intros ds rest H; simpl in H.
  - simplify_eq. simpl. lia.
  - destruct (is_digit c).
    + destruct (digits r) as [ds' rest'] eqn:E. simplify_eq.
      specialize (IH _ _ eq_refl). simpl. lia.
    + simplify_eq. simpl. lia.
Qed.

Lemma number_length (s lit rest : jsstring) :
  number s = Some (lit, rest) -> length rest < length s.
Proof.
  unfold number, integer_part, fraction_part, exponent_part. intros H.
  repeat case_match; simplify_eq;
    repeat match goal with
      | E : digits _ = (_, _) |- _ => apply digits_length in E
      end; cbn [length] in *; lia.
Qed.

Lemma strip_prefix_length (p s r : jsstring) :
  strip_prefix p s = Some r -> length s = length p + length r.
Proof.
  revert s. induction p as [|a p IH]; intros s H; simpl in H.
  - by simplify_eq.
  - destruct s as [|b s]; [discriminate|]. destruct (a =? b)%N; [|discriminate].
    apply IH in H. simpl. lia.
Qed.

Lemma literal_length (s r : jsstring) (v : value) :
  literal s = Parsed v r -> length r < length s.
Proof.
  unfold literal. intros H.
  repeat case_match; simplify_eq;
    match goal with
    | E : strip_prefix _ _ = Some _ |- _ => apply strip_prefix_length in E
    end; simpl in *; lia.
Qed.

Lemma literal_fuel (s : jsstring) : literal s <> OutOfFuel.
Proof. unfold literal. by repeat case_match. Qed.

Lemma skip_ws_cons (s r : jsstring) (d : code_unit) :
  skip_ws s = d :: r -> length r < length s.
Proof. intros H. pose proof (skip_ws_length s) as L. rewrite H in L. simpl in L. lia. Qed.

Ltac shorter :=
  repeat match goal with
    | E : skip_ws _ = _ :: _ |- _ => apply skip_ws_cons in E
    | E : string_chars _ = Some _ |- _ => apply string_chars_length in E
    | E : number _ = Some _ |- _ => apply number_length in E
    | E : literal _ = Parsed _ _ |- _ => apply literal_length in E
    end.

(** Every parser consumes at least one character. *)
Lemma parse_consumes (n : nat) :
  (forall s v r, parse_value n s = Parsed v r -> length r < length s) /\
  (forall s acc v r, parse_elements n s acc = Parsed v r -> length r < length s) /\
  (forall s acc v r, parse_members n s acc = Parsed v r -> length r < length s).
Proof.
  induction n as [|n (IHv & IHe & IHm)]; [by repeat split|].
  repeat split.
  - intros s v r H. simpl in H.
    repeat case_match; simplify_eq; shorter; cbn [length] in *; try lia.
    + apply IHe in H. shorter. cbn [length] in *. lia.
    + apply IHm in H. shorter. cbn [length] in *. lia.
  - intros s acc v r H. simpl in H.
    destruct (parse_value n (skip_ws s)) as [w r0| |] eqn:E; try discriminate.
    apply IHv in E. pose proof (skip_ws_length s).
    repeat case_match; simplify_eq; shorter; cbn [length] in *; try lia.
    apply IHe in H. lia.
  - intros s acc v r H. simpl in H.
    repeat case_match; simplify_eq; shorter; cbn [length] in *;
      repeat match goal with
        | E : parse_value n (skip_ws ?t) = Parsed _ _ |- _ =>
            apply IHv in E; pose proof (skip_ws_length t)
        end; try lia.
    apply IHm in H. lia.
Qed.

(** With fuel above twice the length of the input no parser stops for
    lack of it. *)
Lemma parse_fuel (n : nat) :
  (forall s, 2 * length s < n -> parse_value n s <> OutOfFuel) /\
  (forall s acc, 2 * length s + 1 < n -> parse_elements n s acc <> OutOfFuel) /\
  (forall s acc, 2 * length s + 1 < n -> parse_members n s acc <> OutOfFuel).
Proof.
  induction n as [|n (IHv & IHe & IHm)]; [repeat split; intros; lia|].
  destruct (parse_consumes n) as (Cv & _ & _).
  repeat split.
  - intros s L. simpl.
    repeat case_match; try discriminate; simplify_eq; try apply literal_fuel.
    + apply IHe. shorter. cbn [length] in *. lia.
    + apply IHm. shorter. cbn [length] in *. lia.
  - intros s acc L. simpl. pose proof (skip_ws_length s).
    destruct (parse_value n (skip_ws s)) as [w r0| |] eqn:E; try discriminate.
    + apply Cv in E.
      repeat case_match; try discriminate; simplify_eq.
      apply IHe. shorter. lia.
    + exfalso. revert E. apply IHv. lia.
  - intros s acc L. simpl.
    repeat case_match; try discriminate; simplify_eq.
    + apply IHm. shorter.
      repeat match goal with
        | E : parse_value n (skip_ws ?t) = Parsed _ _ |- _ =>
            apply Cv in E; pose proof (skip_ws_length t)
        end. cbn [length] in *. lia.
    + exfalso.
      match goal with
      | E : parse_value n _ = OutOfFuel |- _ => revert E; apply IHv
      end.
      shorter.
      match goal with |- context [skip_ws ?t] => pose proof (skip_ws_length t) end.
      cbn [length] in *. lia.
Qed.

(** [JSON.parse] is total: it returns a value or throws. *)
Lemma parse_text_fuel (s : jsstring) : parse_text s <> OutOfFuel.
Proof.
  unfold parse_text, enough_fuel.
  destruct (parse_value _ _) eqn:E; [by repeat case_match|done|].
  exfalso. revert E. apply parse_fuel. pose proof (skip_ws_length s). lia.
Qed.

Lemma parse_None (s : jsstring) : parse s = None <-> parse_text s = Invalid.
Proof.
  unfold parse. pose proof (parse_text_fuel s).
  destruct (parse_text s); naive_solver.
Qed.

End JsonFacts.

(** ** JSON.parse reads what JSON.stringify writes *)

Lemma hex_round (n : N) : (n < 16)%N -> Json.hex_digit (hex_char n) = Some n.
Proof.
  intros H. destruct n as [|p]; [reflexivity|].
  do 4 (try destruct p as [p|p|]); try reflexivity; lia.
Qed.

Lemma hex4_round (c : code_unit) :
  (c < 65536)%N ->
  Json.hex4 (hex_char (c / 4096 mod 16)) (hex_char (c / 256 mod 16))
            (hex_char (c / 16 mod 16)) (hex_char (c mod 16)) = Some c.
Proof.
  intros H. unfold Json.hex4.
  rewrite !hex_round by (apply N.mod_lt; lia).
  f_equal. zify. Z.to_euclidean_division_equations. lia.
Qed.

Lemma string_chars_unicode_escape (c : code_unit) (tail : jsstring) :
  (c < 65536)%N ->
  Json.string_chars (unicode_escape c ++ tail)
  = match Json.string_chars tail with
    | Some (cs, rest) => Some (c :: cs, rest)
    | None => None
    end.
Proof.
  intros H. unfold unicode_escape.
  cbn -[Json.hex4 N.div N.modulo hex_char].
  by rewrite hex4_round.
Qed.

Lemma string_chars_plain (c : code_unit) (tail : jsstring) :
  (32 <= c)%N -> c <> 34%N -> c <> 92%N ->
  Json.string_chars (c :: tail)
  = match Json.string_chars tail with
    | Some (cs, rest) => Some (c :: cs, rest)
    | None => None
    end.
Proof.
  intros L Q B. simpl.
  destruct (N.eqb_spec c 34); [done|]. destruct (N.eqb_spec c 92); [done|].
  destruct (N.ltb_spec c 32); [lia|done].
Qed.

Lemma string_chars_quote_unit (c : code_unit) (tail : jsstring) :
  Json.string_chars (quote_unit c ++ tail)
  = match Json.string_chars tail with
    | Some (cs, rest) => Some (c :: cs, rest)
    | None => None
    end.
Proof.
  unfold quote_unit.
  repeat match goal with
    | |- context [(c =? ?k)%N] => destruct (N.eqb_spec c k); [by subst|]
    end.
  destruct (N.ltb_spec c 32).
  - apply string_chars_unicode_escape. lia.
  - by apply string_chars_plain.
Qed.

(** What [JSON.stringify] writes between the quotes, [JSON.parse] reads
    back. *)
Lemma string_chars_quote_chars (s rest : jsstring) :
  Json.string_chars (quote_chars s ++ 34%N :: rest) = Some (s, rest).
Proof.
  remember (length s) as n eqn:Hn. revert s Hn.
  induction n as [n IH] using lt_wf_ind. intros s Hn.
  destruct s as [|c r]; [done|]. cbn [quote_chars].
  destruct (is_leading_surrogate c) eqn:Lc.
  - unfold is_leading_surrogate in Lc. apply andb_prop in Lc as [L1 L2].
    apply N.leb_le in L1, L2.
    destruct r as [|d r'].
    + rewrite string_chars_unicode_escape by lia. done.
    + destruct (is_trailing_surrogate d) eqn:Td.
      * unfold is_trailing_surrogate in Td. apply andb_prop in Td as [T1 T2].
        apply N.leb_le in T1, T2.
        rewrite <- !app_comm_cons.
        rewrite string_chars_plain by lia. rewrite string_chars_plain by lia.
        by rewrite (IH (length r') ltac:(simpl in Hn; lia) r' eq_refl).
      * rewrite <- app_assoc, string_chars_unicode_escape by lia.
        by rewrite (IH (length (d :: r')) ltac:(simpl in *; lia) (d :: r') eq_refl).
  - destruct (is_trailing_surrogate c) eqn:Tc.
    + unfold is_trailing_surrogate in Tc. apply andb_prop in Tc as [T1 T2].
      apply N.leb_le in T1, T2.
      rewrite <- app_assoc, string_chars_unicode_escape by lia.
      by rewrite (IH (length r) ltac:(simpl in *; lia) r eq_refl).
    + rewrite <- app_assoc, string_chars_quote_unit.
      by rewrite (IH (length r) ltac:(simpl in *; lia) r eq_refl).
Qed.

Lemma parse_value_member (k v : jsstring) (fuel : nat) :
  3 <= fuel ->
  Json.parse_value fuel
    (123 :: 34 :: quote_chars k ++ 34 :: 58 :: 34 :: quote_chars v ++ [34; 125])%N
  = Json.Parsed (VObject [(k, VString v)]) [].
Proof.
  intros F. destruct fuel as [|[|[|fuel]]]; [lia..|].
  cbn -[quote_chars Json.string_chars].
  rewrite string_chars_quote_chars.
  cbn -[quote_chars Json.string_chars].
  by rewrite string_chars_quote_chars.
Qed.

Lemma stringify_message_units (s : jsstring) :
  stringify_message s
  = (123 :: 34 :: quote_chars (str "message")
       ++ 34 :: 58 :: 34 :: quote_chars s ++ [34; 125])%N.
Proof.
  unfold stringify_message, quote.
  change (str "{") with [123%N]. change (str ":") with [58%N].
  change (str "}") with [125%N].
  by rewrite <- !app_assoc.
Qed.

(** The envelope that [sendMessage] writes is JSON for an object whose
    [message] is the text. *)
Lemma parse_stringify_message (s : jsstring) :
  Json.parse (stringify_message s)
  = Some (VObject [(str "message", VString s)]).
Proof.
  unfold Json.parse, Json.parse_text, Json.enough_fuel.
  rewrite stringify_message_units.
  set (text := (123 :: _)%N).
  change (Json.skip_ws text) with text. subst text.
  rewrite parse_value_member; [done|]. cbn [length]. lia.
Qed.

(** ** Facts about the updaters *)

Lemma lookup_last_index {A : Type} (l : list A) : l !! (length l - 1) = last l.
Proof. rewrite last_lookup. f_equal. lia. Qed.

Lemma token_update_nil (s : jsstring) : token_update s [] = [].
Proof. reflexivity. Qed.

Lemma token_update_snoc (s : jsstring) (l : list Message.t) (m : Message.t) :
  token_update s (l ++ [m]) =
  if is_assistant m && streaming m then l ++ [set_content s m] else l ++ [m].
Proof.
  unfold token_update, is_assistant. cbv zeta.
  rewrite lookup_last_index, last_snoc.
  destruct (role_eqb _ _ && _); [|done].
  rewrite length_app. simpl.
  replace (length l + 1 - 1) with (length l + 0) by lia.
  by rewrite alter_app_r.
Qed.

Lemma complete_update_nil : complete_update [] = [].
Proof. reflexivity. Qed.

Lemma complete_update_snoc (l : list Message.t) (m : Message.t) :
  complete_update (l ++ [m]) =
  if is_assistant m then l ++ [set_isStreaming false m] else l ++ [m].
Proof.
  unfold complete_update, is_assistant. cbv zeta.
  rewrite lookup_last_index, last_snoc.
  destruct (role_eqb _ _); [|done].
  rewrite length_app. simpl.
  replace (length l + 1 - 1) with (length l + 0) by lia.
  by rewrite alter_app_r.
Qed.

Lemma token_update_idle (s : jsstring) (l : list Message.t) :
  awaiting_tokens l = false -> token_update s l = l.
Proof.
  destruct l as [|m l _] using rev_ind; [done|].
  unfold awaiting_tokens. rewrite last_snoc, token_update_snoc.
  by intros ->.
Qed.

(** ** Facts about the dispatch of [onmessage] *)

Lemma is_string_eq (v : value) (s : jsstring) :
  is_string v s = true -> v = VString s.
Proof.
  destruct v; simpl; try discriminate. unfold JsString.eqb.
  intros H. apply bool_decide_eq_true in H. by subst.
Qed.

Lemma is_event_type (kind : string) (e : jsstring) :
  is_event kind e = true ->
  exists data, Json.parse e = Some data
               /\ get data (str "type") = Some (VString (str kind)).
Proof.
  unfold is_event, envelope_type. destruct (Json.parse e) as [data|]; simpl; [|done].
  destruct (get data (str "type")) as [ty|] eqn:E; [|done].
  intros H. apply is_string_eq in H. subst. eauto.
Qed.

Lemma get_type_data (data ty : value) :
  get data (str "type") = Some ty -> exists d, get data (str "data") = Some d.
Proof. destruct data; simpl; try discriminate; eauto. Qed.

Section Dispatch.

Context {printer : NumberPrinter}.

Lemma onmessage_start (e : jsstring) (st : State) :
  is_event "start" e = true -> onmessage e st = (Normal, on_start st).
Proof.
  intros (data & P & T)%is_event_type. unfold onmessage. by rewrite P, T.
Qed.

Lemma onmessage_token (e : jsstring) (st : State) :
  is_event "token" e = true ->
  exists d, envelope_data e = Some d /\ onmessage e st = (Normal, on_token d st).
Proof.
  intros (data & P & T)%is_event_type.
  destruct (get_type_data _ _ T) as [d D]. exists d.
  unfold envelope_data, onmessage. rewrite P. simpl. by rewrite T, D.
Qed.

Lemma onmessage_complete (e : jsstring) (st : State) :
  is_event "complete" e = true -> onmessage e st = (Normal, on_complete st).
Proof.
  intros (data & P & T)%is_event_type. unfold onmessage. by rewrite P, T.
Qed.

Lemma onmessage_error (e : jsstring) (st : State) :
  is_event "error" e = true ->
  exists d, envelope_data e = Some d /\ onmessage e st = (Normal, on_error d st).
Proof.
  intros (data & P & T)%is_event_type.
  destruct (get_type_data _ _ T) as [d D]. exists d.
  unfold envelope_data, onmessage. rewrite P. simpl. by rewrite T, D.
Qed.

(** Whatever arrives, the transcript after it is the transcript before
    it, or what one of the four cases makes of it. *)
Lemma deliver_messages (e : jsstring) (st : State) :
  messages (deliver st e) = messages st
  \/ is_event "start" e = true
     /\ messages (deliver st e)
        = messages st ++ [Message.make assistant (VString []) (Some true)]
  \/ (exists s, messages (deliver st e) = token_update s (messages st))
  \/ messages (deliver st e) = complete_update (messages st)
  \/ (exists d, messages (deliver st e) = messages st ++ [Message.make error d None]).
Proof.
  unfold deliver, onmessage, is_event, envelope_type.
  destruct (Json.parse e) as [data|]; simpl; [|by left].
  destruct (get data (str "type")) as [ty|] eqn:T; simpl; [|by left].
  destruct (get_type_data _ _ T) as [d ->].
  repeat case_match; simpl; eauto 8.
Qed.

End Dispatch.

(** ** Facts about the transcript invariant *)

Lemma streaming_count_app (l1 l2 : list Message.t) :
  streaming_count (l1 ++ l2) = streaming_count l1 + streaming_count l2.
Proof. induction l1 as [|m l1 IH]; simpl; [done|]. rewrite IH. lia. Qed.

Lemma streaming_count_zero (l : list Message.t) (i : nat) (m : Message.t) :
  streaming_count l = 0 -> l !! i = Some m -> streaming m = false.
Proof.
  revert i. induction l as [|x l IH]; intros i Z L; [done|].
  simpl in Z. destruct i as [|i]; simpl in L.
  - simplify_eq. destruct (streaming m); [lia|done].
  - apply (IH i); [lia|done].
Qed.

Lemma streaming_count_none (l : list Message.t) :
  (forall i m, l !! i = Some m -> streaming m = false) -> streaming_count l = 0.
Proof.
  induction l as [|x l IH]; intros H; [done|]. simpl.
  rewrite (H 0 x eq_refl), IH; [done|].
  intros i m L. by apply (H (S i)).
Qed.

Lemma last_index_snoc (p : Message.t -> bool) (l : list Message.t) (m : Message.t) :
  last_index p (l ++ [m]) = if p m then Some (length l) else last_index p l.
Proof.
  induction l as [|x l IH]; simpl.
  - by destruct (p m).
  - rewrite IH. by destruct (p m).
Qed.

Lemma one_streaming_last_nil : one_streaming_last [].
Proof. split; [simpl; lia|]. intros i m L. by rewrite lookup_nil in L. Qed.

(** Appending a streaming assistant entry to a transcript without one. *)
Lemma one_streaming_last_start (l : list Message.t) (c : value) :
  streaming_count l = 0 ->
  one_streaming_last (l ++ [Message.make assistant c (Some true)]).
Proof.
  intros Z. split.
  - rewrite streaming_count_app, Z. simpl. lia.
  - intros i m L S. rewrite last_index_snoc. simpl. f_equal.
    apply lookup_app_Some in L as [L|[G L]].
    + rewrite (streaming_count_zero _ _ _ Z L) in S. discriminate.
    + apply list_lookup_singleton_Some in L as [E _]. lia.
Qed.

(** Appending an entry that is neither streaming nor an assistant's. *)
Lemma one_streaming_last_other (l : list Message.t) (x : Message.t) :
  streaming x = false -> is_assistant x = false ->
  one_streaming_last l -> one_streaming_last (l ++ [x]).
Proof.
  intros Sx Ax [C I]. split.
  - rewrite streaming_count_app. simpl. rewrite Sx. lia.
  - intros i m L S. rewrite last_index_snoc, Ax.
    apply lookup_app_Some in L as [L|[G L]]; [by apply (I i m)|].
    apply list_lookup_singleton_Some in L as [_ <-]. congruence.
Qed.

(** Replacing the last entry by one of the same role and flag. *)
Lemma one_streaming_last_same (l : list Message.t) (x y : Message.t) :
  streaming y = streaming x -> is_assistant y = is_assistant x ->
  one_streaming_last (l ++ [x]) -> one_streaming_last (l ++ [y]).
Proof.
  intros Sy Ay [C I]. split.
  - revert C. rewrite !streaming_count_app. simpl. by rewrite Sy.
  - intros i m L S. rewrite last_index_snoc, Ay, <- last_index_snoc.
    apply lookup_app_Some in L as [L|[G L]].
    + apply (I i m); [|done]. by apply lookup_app_l_Some.
    + apply list_lookup_singleton_Some in L as [E <-].
      apply (I i x); [|congruence].
      apply lookup_app_Some. right. split; [done|].
      by apply list_lookup_singleton_Some.
Qed.

(** Clearing the flag of a last entry that is an assistant's. *)
Lemma one_streaming_last_complete (l : list Message.t) (x : Message.t) :
  is_assistant x = true ->
  one_streaming_last (l ++ [x]) ->
  one_streaming_last (l ++ [set_isStreaming false x]).
Proof.
  intros Ax [C I].
  assert (streaming_count l = 0) as Z.
  { apply streaming_count_none. intros i m L.
    destruct (streaming m) eqn:S; [|done].
    pose proof (I i m (lookup_app_l_Some _ _ _ _ L) S) as E.
    rewrite last_index_snoc, Ax in E. apply lookup_lt_Some in L.
    simplify_eq. lia. }
  split.
  - rewrite streaming_count_app, Z. simpl. lia.
  - intros i m L S. exfalso.
    apply lookup_app_Some in L as [L|[G L]].
    + rewrite (streaming_count_zero _ _ _ Z L) in S. discriminate.
    + apply list_lookup_singleton_Some in L as [_ <-]. discriminate.
Qed.

Lemma one_streaming_last_token (s : jsstring) (l : list Message.t) :
  one_streaming_last l -> one_streaming_last (token_update s l).
Proof.
  destruct l as [|x l _] using rev_ind; [done|].
  rewrite token_update_snoc. destruct (is_assistant x && streaming x); [|done].
  by apply one_streaming_last_same.
Qed.

Lemma one_streaming_last_complete_update (l : list Message.t) :
  one_streaming_last l -> one_streaming_last (complete_update l).
Proof.
  destruct l as [|x l _] using rev_ind; [done|].
  rewrite complete_update_snoc. destruct (is_assistant x) eqn:Ax; [|done].
  by apply one_streaming_last_complete.
Qed.

Section Transcript.

Context {printer : NumberPrinter}.

(** One inbound message keeps the invariant, unless it is a [start]
    that finds an entry streaming. *)
Lemma deliver_one_streaming_last (e : jsstring) (st : State) :
  one_streaming_last (messages st) ->
  (is_event "start" e = true -> streaming_count (messages st) = 0) ->
  one_streaming_last (messages (deliver st e)).
Proof.
  intros I G.
  destruct (deliver_messages e st) as [->|[[S ->]|[[s ->]|[->|[d ->]]]]].
  - done.
  - by apply one_streaming_last_start, G.
  - by apply one_streaming_last_token.
  - by apply one_streaming_last_complete_update.
  - by apply one_streaming_last_other.
Qed.

Lemma run_cons (st : State) (e : jsstring) (events : list jsstring) :
  run st (e :: events) = run (deliver st e) events.
Proof. reflexivity. Qed.

End Transcript.

(** ** The streaming session *)

Section Session.

Context {printer : NumberPrinter}.

Lemma deliver_token (e f : jsstring) (st : State) :
  is_token e f -> deliver st e = on_token (VString f) st.
Proof.
  intros [T D]. destruct (onmessage_token e st T) as (d & D' & E).
  unfold deliver. rewrite E. simpl. congruence.
Qed.

(** Tokens that find the accumulated text in a streaming last entry
    extend both. *)
Lemma run_tokens (es fs : list jsstring) :
  Forall2 is_token es fs ->
  forall (st : State) (l : list Message.t),
    messages st
    = l ++ [Message.make assistant (VString (currentResponseRef st)) (Some true)] ->
    messages (run st es)
    = l ++ [Message.make assistant
              (VString (currentResponseRef st ++ concat fs)) (Some true)]
    /\ currentResponseRef (run st es) = currentResponseRef st ++ concat fs.
Proof.
  induction 1 as [|e f es fs T _ IH]; intros st l M.
  - simpl. by rewrite app_nil_r.
  - rewrite run_cons, (deliver_token e f st T).
    destruct (IH (on_token (VString f) st) l) as [IM IR].
    + unfold on_token. simpl. rewrite M. by rewrite token_update_snoc.
    + rewrite IM, IR. simpl. by rewrite <- !app_assoc.
Qed.

(** C6.  A start event followed by token events that carry the fragments
    f1 .. fN, in that order, leaves as last entry of the transcript an
    assistant entry whose text is f1 ++ ... ++ fN; the start event has
    emptied the accumulation buffer, whatever it held. *)
Theorem start_then_tokens (st : State) (e0 : jsstring) (es fs : list jsstring) :
  is_event "start" e0 = true ->
  Forall2 is_token es fs ->
  currentResponseRef (deliver st e0) = []
  /\ messages (run st (e0 :: es))
     = messages st ++ [Message.make assistant (VString (concat fs)) (Some true)]
  /\ currentResponseRef (run st (e0 :: es)) = concat fs.
Proof.
  intros S T. rewrite run_cons. unfold deliver at 1 2 3.
  rewrite (onmessage_start e0 st S). simpl. split; [done|].
  by apply (run_tokens es fs T (on_start st) (messages st)).
Qed.

(** C7.  A complete event keeps the number of entries, the role and the
    text of every entry; the only entry it may alter is the last one,
    when it is an assistant entry, and then its streaming flag is
    false afterwards. *)
Theorem complete_alters_only_flag (st : State) (e : jsstring) :
  is_event "complete" e = true ->
  length (messages (deliver st e)) = length (messages st)
  /\ (forall i m, messages st !! i = Some m ->
        exists m', messages (deliver st e) !! i = Some m'
          /\ Message.content m' = Message.content m
          /\ Message.type m' = Message.type m
          /\ (m' = m
              \/ i = length (messages st) - 1
                 /\ Message.type m = assistant
                 /\ Message.isStreaming m' = Some false))
  /\ (forall m, last (messages st) = Some m -> Message.type m = assistant ->
        exists m', last (messages (deliver st e)) = Some m'
          /\ Message.isStreaming m' = Some false).
Proof.
  intros C. unfold deliver. rewrite (onmessage_complete e st C). simpl.
  destruct (messages st) as [|x l _] using rev_ind.
  { repeat split; [by intros i m L|by intros m L]. }
  rewrite complete_update_snoc. unfold is_assistant.
  destruct (role_eqb (Message.type x) assistant) eqn:A.
  - repeat split.
    + by rewrite !length_app.
    + intros i m L. apply lookup_app_Some in L as [L|[G L]].
      * exists m. split; [by apply lookup_app_l_Some|]. by auto.
      * apply list_lookup_singleton_Some in L as [E <-].
        exists (set_isStreaming false x). split.
        { apply lookup_app_Some. right. split; [done|].
          by apply list_lookup_singleton_Some. }
        repeat split. right. rewrite length_app. simpl.
        repeat split; [lia|]. by destruct (Message.type x).
    + intros m L _. rewrite last_snoc. eauto.
  - repeat split.
    + intros i m L. exists m. by auto.
    + intros m L T. rewrite last_snoc in L. simplify_eq.
      rewrite T in A. discriminate.
Qed.

(** C9.  A token event that does not find a streaming assistant entry at
    the end of the transcript (the transcript is empty, or its last
    entry is a user or error entry, or an assistant entry whose flag is
    off) leaves the transcript as it is. *)
Theorem token_without_stream (st : State) (e : jsstring) :
  is_event "token" e = true ->
  awaiting_tokens (messages st) = false ->
  messages (deliver st e) = messages st.
Proof.
  intros T A. destruct (onmessage_token e st T) as (d & _ & E).
  unfold deliver. rewrite E. simpl. by apply token_update_idle.
Qed.

(** C2 (as amended).  A payload that [JSON.parse] rejects makes the
    handler throw that SyntaxError before any update: the state, and
    with it the transcript, the connection state, the streaming flag and
    the accumulation buffer, is unchanged. *)
Theorem malformed_payload_throws (e : jsstring) (st : State) :
  Json.parse e = None -> onmessage e st = (Throw SyntaxError, st).
Proof. intros P. unfold onmessage. by rewrite P. Qed.

(** A payload that is JSON but no object is ignored; [null] makes the
    read of its [type] throw. *)
Lemma null_payload_throws (e : jsstring) (st : State) :
  Json.parse e = Some VNull -> onmessage e st = (Throw TypeError, st).
Proof. intros P. unfold onmessage. by rewrite P. Qed.

(** A payload that is JSON but carries none of the four types is
    ignored. *)
Lemma unknown_type_ignored (e : jsstring) (st : State) (data ty : value) :
  Json.parse e = Some data ->
  get data (str "type") = Some ty ->
  is_string ty (str "start") = false ->
  is_string ty (str "token") = false ->
  is_string ty (str "complete") = false ->
  is_string ty (str "error") = false ->
  onmessage e st = (Normal, st).
Proof. intros P T S K C E. unfold onmessage. by rewrite P, T, S, K, C, E. Qed.

(** C1 (as amended).  Along every sequence of inbound events in which no
    start event arrives while an entry is streaming, and from a
    transcript that has the property, at every instant at most one entry
    has its streaming flag set, and it is the last assistant entry. *)
Theorem streaming_entry_unique (st : State) (events : list jsstring) (k : nat) :
  one_streaming_last (messages st) ->
  starts_when_idle st events = true ->
  one_streaming_last (messages (run st (take k events))).
Proof.
  revert st k. induction events as [|e events IH]; intros st k I G.
  - by rewrite take_nil.
  - destruct k as [|k]; [done|]. simpl in G.
    apply andb_prop in G as [G1 G2].
    cbn [take]. rewrite run_cons. apply IH; [|done].
    apply deliver_one_streaming_last; [done|].
    intros S. rewrite S in G1. by apply Nat.eqb_eq.
Qed.

(** The close handler does not touch the transcript. *)
Lemma onclose_messages (st : State) : messages (onclose st) = messages st.
Proof. reflexivity. Qed.

(** C3 (the code at the failing input).  The channel opens, a start and
    one token arrive, the channel closes: the connection is down and the
    component's streaming state is off, the entry keeps the text
    received, and its own streaming flag is still set. *)
Theorem close_mid_stream_keeps_flag :
  let st := onclose (run (onopen initial)
                       [envelope "start" None;
                        envelope "token" (Some (str "The "))]) in
  messages st = [Message.make assistant (VString (str "The ")) (Some true)]
  /\ isConnected st = false
  /\ isStreaming st = false.
Proof. by vm_compute. Qed.

End Session.

(** ** Sending *)

Lemma truthy_empty (s : jsstring) : truthy s = false <-> s = [].
Proof. by destruct s. Qed.

(** C5.  When the connection is down, or a response is streaming, or the
    input is empty once trimmed, sending does nothing at all: no entry
    is added and nothing is handed to the channel.  Otherwise it appends
    exactly one user entry, with the input as typed, and hands exactly
    one envelope to the channel, the JSON text of an object whose
    [message] is the input. *)
Theorem send_gate (st : State) :
  (isConnected st = false \/ isStreaming st = true
   \/ trim (currentMessage st) = [] ->
   sendMessage st = st)
  /\ (isConnected st = true -> isStreaming st = false ->
      trim (currentMessage st) <> [] ->
      messages (sendMessage st)
      = messages st ++ [Message.make user (VString (currentMessage st)) None]
      /\ sent (sendMessage st)
         = sent st ++ [stringify_message (currentMessage st)]
      /\ Json.parse (stringify_message (currentMessage st))
         = Some (VObject [(str "message", VString (currentMessage st))])).
Proof.
  unfold sendMessage. split.
  - intros [C|[S|T]].
    + rewrite C. simpl. by rewrite orb_true_r.
    + rewrite S. by rewrite orb_true_r.
    + by rewrite T.
  - intros C S T. rewrite C, S.
    destruct (truthy (trim (currentMessage st))) eqn:E.
    + repeat split. apply parse_stringify_message.
    + by apply truthy_empty in E.
Qed.

(** ** Clearing the conversation *)

(** When [fetch] rejects, the transcript is as before and the failure
    is notified. *)
Lemma clearChat_network_error (st : State) :
  messages (clearChat NetworkError st) = messages st
  /\ notices (clearChat NetworkError st)
     = notices st ++ [{| kind := notice_error; text := str "Failed to clear chat" |}]
  /\ requests (clearChat NetworkError st) = requests st ++ [POST_chat_clear].
Proof. done. Qed.

(** C4 (the code at the failing inputs).  The backend answers the reset
    request with a status outside 200..299: the transcript is emptied
    all the same and success is notified. *)
Theorem clearChat_ignores_status (status : N) (body : jsstring) (st : State) :
  ok status = false ->
  requests (clearChat (Response status body) st) = requests st ++ [POST_chat_clear]
  /\ messages (clearChat (Response status body) st) = []
  /\ notices (clearChat (Response status body) st)
     = notices st
       ++ [{| kind := notice_success; text := str "Chat cleared successfully" |}].
Proof. done. Qed.

(** ** The document snapshot *)

(** When [fetch] rejects, or the body is not JSON, the snapshot is as
    before and the failure is notified. *)
Lemma fetchDocuments_rejected (response : fetch_result) (st : State) :
  match response with
  | NetworkError => True
  | Response _ body => Json.parse body = None
  end ->
  documents (fetchDocuments response st) = documents st
  /\ notices (fetchDocuments response st)
     = notices st
       ++ [{| kind := notice_error; text := str "Failed to fetch documents" |}].
Proof.
  unfold fetchDocuments. destruct response as [|status body]; [done|].
  by intros ->.
Qed.

(** When the backend answers with a JSON body, the snapshot is that
    body, whole and in its order, and nothing is notified. *)
Lemma fetchDocuments_replaces (status : N) (body : jsstring) (docs : value)
    (st : State) :
  Json.parse body = Some docs ->
  documents (fetchDocuments (Response status body) st) = docs
  /\ notices (fetchDocuments (Response status body) st) = notices st.
Proof. unfold fetchDocuments. by intros ->. Qed.

(** C8 (the code at the failing inputs).  The backend answers the list
    request with a status outside 200..299 and a JSON body: the body
    replaces the snapshot and no failure is notified. *)
Theorem fetchDocuments_ignores_status (status : N) (body : jsstring)
    (docs : value) (st : State) :
  ok status = false ->
  Json.parse body = Some docs ->
  documents (fetchDocuments (Response status body) st) = docs
  /\ notices (fetchDocuments (Response status body) st) = notices st.
Proof. intros _. apply fetchDocuments_replaces. Qed.

(** The two handlers that do look at the status: an answer outside
    200..299 leaves the snapshot alone and notifies the failure. *)
Lemma deleteDocument_checks_status (file_name body : jsstring) (status : N)
    (listing : fetch_result) (st : State) :
  ok status = false ->
  documents (deleteDocument file_name (Response status body) listing st)
  = documents st
  /\ notices (deleteDocument file_name (Response status body) listing st)
     = notices st
       ++ [{| kind := notice_error; text := str "Failed to delete document" |}].
Proof. unfold deleteDocument. by intros ->. Qed.

Lemma handleFileUpload_checks_status (file : File) (files : list File)
    (body : jsstring) (status : N) (listing : fetch_result) (st : State) :
  ok status = false ->
  documents (handleFileUpload (file :: files) (Response status body) listing st)
  = documents st
  /\ uploadProgress
       (handleFileUpload (file :: files) (Response status body) listing st)
     = Some {| filename := name file; status := failed |}.
Proof. unfold handleFileUpload. simpl. by intros ->. Qed.

(** C10.  With no file selected the upload handler returns at once: the
    whole state is as before, so no request is issued, the upload status
    is not set and the snapshot is unchanged. *)
Theorem upload_nothing_selected (upload listing : fetch_result) (st : State) :
  handleFileUpload [] upload listing st = st
  /\ requests (handleFileUpload [] upload listing st) = requests st
  /\ uploadProgress (handleFileUpload [] upload listing st) = uploadProgress st
  /\ documents (handleFileUpload [] upload listing st) = documents st.
Proof. done. Qed.

(** ** More facts about JSON.parse and the dispatch *)

(** Nothing that [JSON.parse] returns is, or holds, [undefined] at its
    top. *)
Lemma parse_value_defined (n : nat) :
  (forall s v r, Json.parse_value n s = Json.Parsed v r -> v <> VUndefined) /\
  (forall s acc v r, Json.parse_elements n s acc = Json.Parsed v r -> v <> VUndefined) /\
  (forall s acc v r, Json.parse_members n s acc = Json.Parsed v r -> v <> VUndefined).
Proof.
  induction n as [|n (IHv & IHe & IHm)]; [by repeat split|].
  repeat split.
  - intros s v r H. simpl in H. unfold Json.literal in H.
    repeat case_match; simplify_eq; try done; eauto.
  - intros s acc v r H. simpl in H.
    repeat case_match; simplify_eq; try done; eauto.
  - intros s acc v r H. simpl in H.
    repeat case_match; simplify_eq; try done; eauto.
Qed.

Lemma parse_defined (e : jsstring) : Json.parse e <> Some VUndefined.
Proof.
  unfold Json.parse, Json.parse_text. intros H.
  destruct (parse_value_defined (Json.enough_fuel e)) as (V & _ & _).
  repeat case_match; simplify_eq. by eapply V.
Qed.

Lemma get_defined (data : value) (k : jsstring) :
  data <> VUndefined -> data <> VNull -> exists v, get data k = Some v.
Proof. destruct data; simpl; try done; eauto. Qed.

Section Cases.

Context {printer : NumberPrinter}.

(** The five ways of an inbound message. *)
Lemma deliver_cases (e : jsstring) (st : State) :
  (is_event "start" e = false /\ is_event "token" e = false
   /\ is_event "complete" e = false /\ is_event "error" e = false
   /\ deliver st e = st)
  \/ (is_event "start" e = true /\ deliver st e = on_start st)
  \/ (is_event "token" e = true
      /\ exists d, envelope_data e = Some d /\ deliver st e = on_token d st)
  \/ (is_event "complete" e = true /\ deliver st e = on_complete st)
  \/ (is_event "error" e = true
      /\ exists d, envelope_data e = Some d /\ deliver st e = on_error d st).
Proof.
  destruct (is_event "start" e) eqn:S.
  { right. left. split; [done|]. unfold deliver. by rewrite onmessage_start. }
  destruct (is_event "token" e) eqn:T.
  { right. right. left. split; [done|].
    destruct (onmessage_token e st T) as (d & D & E). exists d.
    unfold deliver. by rewrite E. }
  destruct (is_event "complete" e) eqn:C.
  { do 3 right. left. split; [done|]. unfold deliver.
    by rewrite onmessage_complete. }
  destruct (is_event "error" e) eqn:R.
  { do 4 right. split; [done|].
    destruct (onmessage_error e st R) as (d & D & E). exists d.
    unfold deliver. by rewrite E. }
  left. repeat split.
  revert S T C R. unfold deliver, onmessage, is_event, envelope_type.
  destruct (Json.parse e) as [data|]; simpl; [|done].
  destruct (get data (str "type")) as [ty|] eqn:G; simpl; [|done].
  by intros -> -> -> ->.
Qed.

End Cases.

(** ** What an inbound message can and cannot do *)

Section Inbound.

Context {printer : NumberPrinter}.


(** X2.  A payload that is JSON, but not null and not an envelope of one
    of the four types (a number, a string, an array, an object without
    [type] or with another [type]), is ignored: the handler returns and
    the state is as before. *)
Theorem non_envelope_ignored (e : jsstring) (st : State) (data : value) :
  Json.parse e = Some data -> data <> VNull ->
  is_event "start" e = false -> is_event "token" e = false ->
  is_event "complete" e = false -> is_event "error" e = false ->
  onmessage e st = (Normal, st).
Proof.
  intros P N. pose proof (parse_defined e) as D. rewrite P in D.
  destruct (get_defined data (str "type")) as [ty T]; [congruence|done|].
  unfold is_event, envelope_type. rewrite P. simpl. rewrite T.
  intros S K C E. by apply (unknown_type_ignored e st data ty).
Qed.

Lemma deliver_frame (e : jsstring) (st : State) :
  isConnected (deliver st e) = isConnected st
  /\ currentMessage (deliver st e) = currentMessage st
  /\ documents (deliver st e) = documents st
  /\ uploadProgress (deliver st e) = uploadProgress st
  /\ activeTab (deliver st e) = activeTab st
  /\ sent (deliver st e) = sent st
  /\ requests (deliver st e) = requests st
  /\ timers (deliver st e) = timers st
  /\ notices st `prefix_of` notices (deliver st e).
Proof.
  destruct (deliver_cases e st)
    as [(_ & _ & _ & _ & ->)|[[_ ->]|[[_ (d & _ & ->)]|[[_ ->]|[_ (d & _ & ->)]]]]];
    simpl; repeat split; try done.
  by apply prefix_app_r.
Qed.

(** X3.  However many messages arrive and whatever they hold, the
    message handler leaves the connection state, the input, the document
    snapshot, the upload status and the active tab alone, sends nothing
    on the channel, issues no request and sets no timer; notifications
    are only added. *)
Theorem inbound_frame (st : State) (events : list jsstring) :
  isConnected (run st events) = isConnected st
  /\ currentMessage (run st events) = currentMessage st
  /\ documents (run st events) = documents st
  /\ uploadProgress (run st events) = uploadProgress st
  /\ activeTab (run st events) = activeTab st
  /\ sent (run st events) = sent st
  /\ requests (run st events) = requests st
  /\ timers (run st events) = timers st
  /\ notices st `prefix_of` notices (run st events).
Proof.
  revert st. induction events as [|e events IH]; intros st; [done|].
  rewrite run_cons.
  destruct (IH (deliver st e)) as (A1 & A2 & A3 & A4 & A5 & A6 & A7 & A8 & A9).
  destruct (deliver_frame e st) as (B1 & B2 & B3 & B4 & B5 & B6 & B7 & B8 & B9).
  repeat split; try congruence. by etrans.
Qed.

(** X4.  One inbound message never removes an entry and adds at most
    one; every entry but the last is exactly as before, and the last
    keeps its role. *)
Theorem inbound_touches_last_only (e : jsstring) (st : State) :
  length (messages st) <= length (messages (deliver st e))
  /\ length (messages (deliver st e)) <= S (length (messages st))
  /\ (forall i, S i < length (messages st) ->
        messages (deliver st e) !! i = messages st !! i)
  /\ (forall i m, messages st !! i = Some m ->
        exists m', messages (deliver st e) !! i = Some m'
                   /\ Message.type m' = Message.type m).
Proof.
  assert (forall (l : list Message.t) (x : Message.t),
            length l <= length (l ++ [x])
            /\ length (l ++ [x]) <= S (length l)
            /\ (forall i, S i < length l -> (l ++ [x]) !! i = l !! i)
            /\ (forall i m, l !! i = Some m ->
                  exists m', (l ++ [x]) !! i = Some m'
                             /\ Message.type m' = Message.type m)) as Grow.
  { intros l x. rewrite length_app. simpl. repeat split; try lia.
    - intros i L. apply lookup_app_l. lia.
    - intros i m L. exists m. split; [by apply lookup_app_l_Some|done]. }
  assert (forall (l : list Message.t) (x y : Message.t),
            Message.type y = Message.type x ->
            length (l ++ [x]) <= length (l ++ [y])
            /\ length (l ++ [y]) <= S (length (l ++ [x]))
            /\ (forall i, S i < length (l ++ [x]) ->
                  (l ++ [y]) !! i = (l ++ [x]) !! i)
            /\ (forall i m, (l ++ [x]) !! i = Some m ->
                  exists m', (l ++ [y]) !! i = Some m'
                             /\ Message.type m' = Message.type m)) as Swap.
  { intros l x y T. rewrite !length_app. simpl. repeat split; try lia.
    - intros i L. rewrite !lookup_app_l by lia. done.
    - intros i m L. apply lookup_app_Some in L as [L|[G L]].
      + exists m. split; [by apply lookup_app_l_Some|done].
      + apply list_lookup_singleton_Some in L as [E <-]. exists y.
        split; [|done]. apply lookup_app_Some. right. split; [done|].
        by apply list_lookup_singleton_Some. }
  assert (forall l : list Message.t,
            length l <= length l /\ length l <= S (length l)
            /\ (forall i, S i < length l -> l !! i = l !! i)
            /\ (forall i m, l !! i = Some m ->
                  exists m', l !! i = Some m'
                             /\ Message.type m' = Message.type m)) as Same.
  { intros l. repeat split; try lia. eauto. }
  destruct (deliver_messages e st) as [->|[[_ ->]|[[s ->]|[->|[d ->]]]]];
    [apply Same|apply Grow| | |apply Grow].
  - destruct (messages st) as [|x l _] using rev_ind; [apply Same|].
    rewrite token_update_snoc. destruct (is_assistant x && streaming x);
      [by apply Swap|apply Same].
  - destruct (messages st) as [|x l _] using rev_ind; [apply Same|].
    rewrite complete_update_snoc. destruct (is_assistant x);
      [by apply Swap|apply Same].
Qed.

(** X5.  An error event appends exactly one entry, of role error, that
    holds the data of the envelope as it came; the entries before it are
    as they were, the component's streaming state is off, the buffer is
    kept and one error is notified. *)
Theorem error_appends (e : jsstring) (st : State) :
  is_event "error" e = true ->
  exists d, envelope_data e = Some d
    /\ messages (deliver st e) = messages st ++ [Message.make error d None]
    /\ isStreaming (deliver st e) = false
    /\ currentResponseRef (deliver st e) = currentResponseRef st
    /\ notices (deliver st e)
       = notices st
         ++ [{| kind := notice_error;
                text := str "Error occurred while processing your message" |}].
Proof.
  intros E. destruct (onmessage_error e st E) as (d & D & H). exists d.
  unfold deliver. by rewrite H.
Qed.


End Inbound.

(** ** The send gate *)

Lemma all_white_space_Forall (s : jsstring) :
  all_white_space s = true <-> Forall (fun c => is_white_space c = true) s.
Proof.
  unfold all_white_space. induction s as [|c s IH]; simpl.
  - split; [by constructor|done].
  - rewrite andb_true_iff, IH, Forall_cons. done.
Qed.

Lemma trim_start_nil (s : jsstring) :
  trim_start s = [] <-> Forall (fun c => is_white_space c = true) s.
Proof.
  induction s as [|c s IH]; simpl; [by split; [constructor|]|].
  rewrite Forall_cons. destruct (is_white_space c); [|by split; [|intros []]].
  rewrite IH. tauto.
Qed.

Lemma trim_start_head (s r : jsstring) (c : code_unit) :
  trim_start s = c :: r -> is_white_space c = false.
Proof.
  induction s as [|x s IH]; simpl; [done|].
  destruct (is_white_space x) eqn:W; [done|]. by intros [= <- _].
Qed.

(** Trimming leaves nothing exactly when the string is white space
    throughout. *)
Lemma trim_nil (s : jsstring) : trim s = [] <-> all_white_space s = true.
Proof.
  rewrite all_white_space_Forall. unfold trim, trim_end. split.
  - intros H. apply (f_equal reverse) in H. rewrite reverse_involutive in H.
    change (reverse []) with (@nil code_unit) in H.
    apply trim_start_nil in H. rewrite Forall_reverse in H.
    destruct (trim_start s) as [|c r] eqn:E; [by apply trim_start_nil|].
    apply trim_start_head in E. apply Forall_cons in H as [W _]. congruence.
  - intros H. apply trim_start_nil in H. by rewrite H.
Qed.

Lemma send_disabled_rejects (st : State) :
  send_disabled st = true -> sendMessage st = st.
Proof.
  unfold send_disabled, sendMessage. intros H.
  replace (negb (truthy (trim (currentMessage st))) || negb (isConnected st)
           || isStreaming st) with true; [done|].
  destruct (truthy _), (isConnected st), (isStreaming st); done.
Qed.

Lemma send_enabled_accepts (st : State) :
  send_disabled st = false ->
  sendMessage st
  = setCurrentMessage []
      (websocket_send (stringify_message (currentMessage st))
         (setMessages
            (fun prev => prev ++ [Message.make user (VString (currentMessage st)) None])
            st)).
Proof.
  unfold send_disabled, sendMessage. intros H.
  replace (negb (truthy (trim (currentMessage st))) || negb (isConnected st)
           || isStreaming st) with false; [done|].
  destruct (truthy _), (isConnected st), (isStreaming st); done.
Qed.

Lemma send_disabled_spec (st : State) :
  send_disabled st = true
  <-> isConnected st = false \/ isStreaming st = true
      \/ all_white_space (currentMessage st) = true.
Proof.
  unfold send_disabled. rewrite <- trim_nil, <- truthy_empty.
  destruct (truthy _), (isConnected st), (isStreaming st); simpl; intuition congruence.
Qed.

(** X7.  The Send button is rendered disabled exactly when [sendMessage]
    would do nothing, and that is exactly when the connection is down,
    a response is streaming or the input is white space throughout
    (empty included).  Whenever the text area is rendered disabled, so
    is the button. *)
Theorem send_disabled_iff (st : State) :
  (send_disabled st = true <-> sendMessage st = st)
  /\ (send_disabled st = true
      <-> isConnected st = false \/ isStreaming st = true
          \/ all_white_space (currentMessage st) = true)
  /\ (input_disabled st = true -> send_disabled st = true).
Proof.
  split; [|split; [apply send_disabled_spec|]].
  - split; [apply send_disabled_rejects|].
    intros H. destruct (send_disabled st) eqn:D; [done|].
    rewrite (send_enabled_accepts st D) in H.
    apply (f_equal (fun s => length (messages s))) in H. simpl in H.
    rewrite length_app in H. simpl in H. lia.
  - unfold input_disabled, send_disabled. by intros ->.
Qed.

(** X8.  Sending twice in a row sends once: an accepted send empties the
    input, so the second call finds nothing to send. *)
Theorem sendMessage_idempotent (st : State) :
  sendMessage (sendMessage st) = sendMessage st.
Proof.
  destruct (send_disabled st) eqn:D.
  - by rewrite !(send_disabled_rejects st D).
  - rewrite (send_enabled_accepts st D). apply send_disabled_rejects.
    apply send_disabled_spec. right. right. reflexivity.
Qed.

(** X9.  The keyboard sends exactly when the button would: a key press
    changes the state only when it is Enter without Shift and the Send
    button is enabled, and then it does what [sendMessage] does.  The
    default action of the key is prevented for Enter without Shift,
    whether or not anything is sent, and for no other key. *)
Theorem handleKeyPress_gate (e : KeyEvent) (st : State) :
  (fst (handleKeyPress e st) = true
   <-> key e = str "Enter" /\ shiftKey e = false)
  /\ (snd (handleKeyPress e st) <> st
      <-> key e = str "Enter" /\ shiftKey e = false /\ send_disabled st = false)
  /\ (key e = str "Enter" -> shiftKey e = false ->
      snd (handleKeyPress e st) = sendMessage st).
Proof.
  unfold handleKeyPress, JsString.eqb.
  assert (sendMessage st <> st <-> send_disabled st = false) as R.
  { split.
    - intros N. destruct (send_disabled st) eqn:D; [|done].
      by apply send_disabled_rejects in D.
    - intros D E. destruct (send_disabled st) eqn:D'; [done|].
      rewrite (send_enabled_accepts st D') in E.
      apply (f_equal (fun s => length (messages s))) in E. simpl in E.
      rewrite length_app in E. simpl in E. lia. }
  destruct (bool_decide_reflect (key e = str "Enter")) as [K|K],
           (shiftKey e) eqn:S; simpl; rewrite ?R; intuition congruence.
Qed.

(** X10.  Sending does not wait for the answer: after an accepted send
    the component is not streaming, and a second text typed before any
    answer arrives is sent as well. *)
Theorem send_does_not_wait (st : State) (second : jsstring) :
  send_disabled st = false ->
  all_white_space second = false ->
  let st' := sendMessage (setCurrentMessage second (sendMessage st)) in
  isStreaming (sendMessage st) = false
  /\ sent st' = sent st ++ [stringify_message (currentMessage st);
                            stringify_message second]
  /\ messages st'
     = messages st ++ [Message.make user (VString (currentMessage st)) None;
                       Message.make user (VString second) None].
Proof.
  intros D W. cbv zeta. rewrite (send_enabled_accepts st D).
  assert (isConnected st = true /\ isStreaming st = false) as [C S].
  { unfold send_disabled in D. destruct (isConnected st), (isStreaming st);
      simpl in D; try done. }
  rewrite send_enabled_accepts.
  - simpl. rewrite <- !app_assoc. done.
  - apply not_true_is_false. intros H. apply send_disabled_spec in H. simpl in H.
    destruct H as [H|[H|H]]; congruence.
Qed.

(** ** Invariants of the component *)

Lemma awaiting_tokens_snoc (l : list Message.t) (m : Message.t) :
  awaiting_tokens (l ++ [m]) = is_assistant m && streaming m.
Proof. unfold awaiting_tokens. by rewrite last_snoc. Qed.

Lemma awaiting_tokens_complete_update (l : list Message.t) :
  awaiting_tokens (complete_update l) = false.
Proof.
  destruct l as [|m l _] using rev_ind; [done|].
  rewrite complete_update_snoc. destruct (is_assistant m) eqn:A.
  - rewrite awaiting_tokens_snoc. simpl. apply andb_false_r.
  - by rewrite awaiting_tokens_snoc, A.
Qed.

Lemma awaiting_tokens_token_update (s : jsstring) (l : list Message.t) :
  awaiting_tokens (token_update s l) = awaiting_tokens l.
Proof.
  destruct l as [|m l _] using rev_ind; [done|].
  rewrite token_update_snoc. destruct (is_assistant m && streaming m) eqn:A; [|done].
  by rewrite !awaiting_tokens_snoc, A.
Qed.

Section Invariants.

Context {printer : NumberPrinter}.

(** What a step other than an inbound message does to the session: it
    keeps the buffer, and either keeps the transcript (the streaming
    state is kept or turned off), or appends the user entry of an
    accepted send, or empties the transcript for an answered Clear. *)
Lemma step_session (a : action) (st : State) :
  (exists e, a = Inbound e)
  \/ currentResponseRef (step st a) = currentResponseRef st
     /\ (messages (step st a) = messages st
         /\ (isStreaming (step st a) = isStreaming st
             \/ isStreaming (step st a) = false)
         \/ send_disabled st = false
            /\ messages (step st a)
               = messages st
                 ++ [Message.make user (VString (currentMessage st)) None]
            /\ isStreaming (step st a) = isStreaming st
         \/ is_answered_clear a = true
            /\ messages (step st a) = []
            /\ isStreaming (step st a) = isStreaming st).
Proof.
  assert (forall st', st' = sendMessage st ->
            currentResponseRef st' = currentResponseRef st
            /\ (messages st' = messages st
                /\ (isStreaming st' = isStreaming st \/ isStreaming st' = false)
                \/ send_disabled st = false
                   /\ messages st'
                      = messages st
                        ++ [Message.make user (VString (currentMessage st)) None]
                   /\ isStreaming st' = isStreaming st
                \/ false = true /\ messages st' = []
                   /\ isStreaming st' = isStreaming st)) as Send.
  { intros st' ->. destruct (send_disabled st) eqn:D.
    - rewrite (send_disabled_rejects st D). auto 10.
    - rewrite (send_enabled_accepts st D). simpl. auto 10. }
  destruct a as [created listing|e| | | |input|k| |r|listing|files upload listing
                |f deletion listing|t|]; simpl.
  - right. unfold mount, connectWebSocket, fetchDocuments.
    destruct created, listing as [|status body]; simpl;
      try destruct (Json.parse body); simpl; auto 10.
  - left. eauto.
  - right. auto 10.
  - right. auto 10.
  - right. auto 10.
  - right. auto 10.
  - right. unfold handleKeyPress.
    destruct (JsString.eqb (key k) (str "Enter") && negb (shiftKey k)); simpl;
      [by apply Send|auto 10].
  - right. by apply Send.
  - right. destruct r as [|status body]; simpl; auto 10.
  - right. unfold fetchDocuments. destruct listing as [|status body]; simpl;
      try destruct (Json.parse body); simpl; auto 10.
  - right. unfold handleFileUpload, fetchDocuments.
    destruct (files !! 0); simpl; [|auto 10].
    destruct upload as [|status body]; simpl; [auto 10|].
    destruct (ok status); simpl; [|auto 10].
    destruct listing as [|status' body']; simpl;
      try destruct (Json.parse body'); simpl; auto 10.
  - right. unfold deleteDocument, fetchDocuments.
    destruct deletion as [|status body]; simpl; [auto 10|].
    destruct (ok status); simpl; [|auto 10].
    destruct listing as [|status' body']; simpl;
      try destruct (Json.parse body'); simpl; auto 10.
  - right. auto 10.
  - right. auto 10.
Qed.

Lemma steps_cons (st : State) (a : action) (actions : list action) :
  steps st (a :: actions) = steps (step st a) actions.
Proof. reflexivity. Qed.

Lemma buffer_shown_deliver (e : jsstring) (st : State) :
  buffer_shown st -> buffer_shown (deliver st e).
Proof.
  intros B.
  destruct (deliver_cases e st)
    as [(_ & _ & _ & _ & ->)|[[_ ->]|[[_ (d & _ & ->)]|[[_ ->]|[_ (d & _ & ->)]]]]];
    [done| | | |]; intros m; simpl.
  - rewrite last_snoc. by intros [= <-].
  - destruct (messages st) as [|x l _] using rev_ind; [done|].
    rewrite token_update_snoc.
    destruct (is_assistant x && streaming x) eqn:A; rewrite last_snoc;
      intros [= <-]; [done|]. intros A'. congruence.
  - intros L A.
    pose proof (awaiting_tokens_complete_update (messages st)) as W.
    unfold awaiting_tokens in W. rewrite L in W. congruence.
  - rewrite last_snoc. by intros [= <-].
Qed.

Lemma buffer_shown_step (a : action) (st : State) :
  buffer_shown st -> buffer_shown (step st a).
Proof.
  intros B. destruct (step_session a st) as [[e ->]|[R H]].
  { by apply buffer_shown_deliver. }
  unfold buffer_shown. rewrite R.
  destruct H as [[-> _]|[(_ & -> & _)|(_ & -> & _)]]; [done| |done].
  intros m. rewrite last_snoc. by intros [= <-].
Qed.

(** X11.  Whatever happens to the component, in whatever order, the
    entry that tokens write to shows the accumulation buffer: when the
    last entry is a streaming assistant entry, its text is the buffer. *)
Theorem buffer_shown_steps (st : State) (actions : list action) :
  buffer_shown st -> buffer_shown (steps st actions).
Proof.
  revert st. induction actions as [|a actions IH]; intros st B; [done|].
  rewrite steps_cons. by apply IH, buffer_shown_step.
Qed.

Lemma flag_has_entry_step (a : action) (st : State) :
  is_answered_clear a = false ->
  flag_has_entry st -> flag_has_entry (step st a).
Proof.
  intros C F. destruct (step_session a st) as [[e ->]|[_ H]].
  - simpl. unfold flag_has_entry.
    destruct (deliver_cases e st)
      as [(_ & _ & _ & _ & ->)|[[_ ->]|[[_ (d & _ & ->)]|[[_ ->]|[_ (d & _ & ->)]]]]];
      simpl; try done.
    + intros _. by rewrite awaiting_tokens_snoc.
    + intros S. rewrite awaiting_tokens_token_update. by apply F.
  - unfold flag_has_entry.
    destruct H as [[-> [->| ->]]|[(D & _ & ->)|(C' & _)]];
      [done|done| |congruence].
    intros S. unfold send_disabled in D. rewrite S in D.
    by rewrite orb_true_r in D.
Qed.

(** X12.  As long as no Clear is answered, the streaming state of the
    component implies a streaming entry: whenever [isStreaming] is true,
    the last entry is a streaming assistant entry, the one tokens write
    to. *)
Theorem flag_has_entry_steps (st : State) (actions : list action) :
  Forall (fun a => is_answered_clear a = false) actions ->
  flag_has_entry st -> flag_has_entry (steps st actions).
Proof.
  intros H. revert st. induction H as [|a actions C _ IH]; intros st F; [done|].
  rewrite steps_cons. by apply IH, flag_has_entry_step.
Qed.

Lemma entry_shaped_token_update (s : jsstring) (l : list Message.t) :
  Forall (fun m => entry_shaped m = true) l ->
  Forall (fun m => entry_shaped m = true) (token_update s l).
Proof.
  destruct l as [|x l _] using rev_ind; [done|].
  rewrite token_update_snoc. destruct (is_assistant x && streaming x) eqn:A; [|done].
  rewrite !Forall_app, !Forall_singleton. intros [L X]. split; [done|].
  apply andb_prop in A as [A _]. revert A X.
  unfold is_assistant, entry_shaped, set_content. simpl.
  destruct (Message.type x); try done. intros _ X.
  apply andb_prop in X as [_ ->]. done.
Qed.

Lemma entry_shaped_complete_update (l : list Message.t) :
  Forall (fun m => entry_shaped m = true) l ->
  Forall (fun m => entry_shaped m = true) (complete_update l).
Proof.
  destruct l as [|x l _] using rev_ind; [done|].
  rewrite complete_update_snoc. destruct (is_assistant x) eqn:A; [|done].
  rewrite !Forall_app, !Forall_singleton. intros [L X]. split; [done|].
  revert A X. unfold is_assistant, entry_shaped, set_isStreaming. simpl.
  destruct (Message.type x); try done. intros _ X.
  apply andb_prop in X as [-> _]. done.
Qed.

Lemma entry_shaped_step (a : action) (st : State) :
  Forall (fun m => entry_shaped m = true) (messages st) ->
  Forall (fun m => entry_shaped m = true) (messages (step st a)).
Proof.
  intros F. destruct (step_session a st) as [[e ->]|[_ H]].
  - simpl.
    destruct (deliver_messages e st) as [->|[[_ ->]|[[s ->]|[->|[d ->]]]]];
      try done.
    + apply Forall_app. by split; [|apply Forall_singleton].
    + by apply entry_shaped_token_update.
    + by apply entry_shaped_complete_update.
    + apply Forall_app. by split; [|apply Forall_singleton].
  - destruct H as [[-> _]|[(_ & -> & _)|(_ & -> & _)]]; [done| |done].
    apply Forall_app. by split; [|apply Forall_singleton].
Qed.

(** X13.  Whatever happens to the component, every entry keeps the shape
    its role has: an assistant entry holds a text and a streaming flag,
    a user entry a text and no flag, an error entry no flag.  So a
    streaming entry is always an assistant entry. *)
Theorem entry_shaped_steps (st : State) (actions : list action) :
  Forall (fun m => entry_shaped m = true) (messages st) ->
  Forall (fun m => entry_shaped m = true) (messages (steps st actions))
  /\ forall m, m ∈ messages (steps st actions) ->
       streaming m = true -> Message.type m = assistant.
Proof.
  intros F.
  assert (Forall (fun m => entry_shaped m = true) (messages (steps st actions))) as G.
  { revert st F. induction actions as [|a actions IH]; intros st F; [done|].
    rewrite steps_cons. by apply IH, entry_shaped_step. }
  split; [done|]. intros m M S. rewrite Forall_forall in G.
  specialize (G m M). revert S G. unfold streaming, entry_shaped.
  destruct (Message.type m); [done| |]; intros S G.
  - apply andb_prop in G as [_ G]. apply bool_decide_eq_true in G.
    rewrite G in S. done.
  - apply bool_decide_eq_true in G. rewrite G in S. done.
Qed.

Lemma step_disconnected (a : action) (st : State) :
  is_socket_open a = false ->
  isConnected st = false ->
  isConnected (step st a) = false /\ sent (step st a) = sent st.
Proof.
  intros O C.
  assert (sendMessage st = st) as S.
  { apply send_disabled_rejects, send_disabled_spec. by left. }
  destruct a as [created listing|e| | | |input|k| |r|listing|files upload listing
                |f deletion listing|t|]; simpl; try done.
  - unfold mount, connectWebSocket, fetchDocuments.
    destruct created, listing as [|status body]; simpl;
      try destruct (Json.parse body); simpl; auto.
  - destruct (deliver_frame e st) as (-> & _ & _ & _ & _ & -> & _). done.
  - unfold handleKeyPress.
    destruct (JsString.eqb (key k) (str "Enter") && negb (shiftKey k)); simpl;
      [by rewrite S|done].
  - by rewrite S.
  - destruct r as [|status body]; simpl; auto.
  - unfold fetchDocuments. destruct listing as [|status body]; simpl;
      try destruct (Json.parse body); simpl; auto.
  - unfold handleFileUpload, fetchDocuments.
    destruct (files !! 0); simpl; [|auto].
    destruct upload as [|status body]; simpl; [auto|].
    destruct (ok status); simpl; [|auto].
    destruct listing as [|status' body']; simpl;
      try destruct (Json.parse body'); simpl; auto.
  - unfold deleteDocument, fetchDocuments.
    destruct deletion as [|status body]; simpl; [auto|].
    destruct (ok status); simpl; [|auto].
    destruct listing as [|status' body']; simpl;
      try destruct (Json.parse body'); simpl; auto.
Qed.

(** X14.  There is no reconnection but the socket's own: from a state in
    which the connection is down, and until [onopen] fires, the
    connection stays down and nothing is handed to the channel, whatever
    is typed, clicked or received. *)
Theorem disconnected_sends_nothing (st : State) (actions : list action) :
  isConnected st = false ->
  Forall (fun a => is_socket_open a = false) actions ->
  isConnected (steps st actions) = false
  /\ sent (steps st actions) = sent st.
Proof.
  intros C H. revert st C.
  induction H as [|a actions O _ IH]; intros st C; [done|].
  rewrite steps_cons. destruct (step_disconnected a st O C) as [C' S'].
  destruct (IH (step st a) C') as [C'' S'']. split; congruence.
Qed.

End Invariants.

(** ** Answers that are lost *)

Section Lost.

Context {printer : NumberPrinter}.

Lemma run_tokens_idle (st : State) (events : list jsstring) :
  awaiting_tokens (messages st) = false ->
  Forall (fun e => is_event "token" e = true) events ->
  messages (run st events) = messages st.
Proof.
  intros A H. revert st A.
  induction H as [|e events T _ IH]; intros st A; [done|].
  rewrite run_cons. destruct (onmessage_token e st T) as (d & _ & E).
  assert (messages (deliver st e) = messages st) as M.
  { unfold deliver. rewrite E. simpl. by apply token_update_idle. }
  rewrite IH; [done|]. by rewrite M.
Qed.

Lemma run_empty (st : State) (events : list jsstring) :
  messages st = [] ->
  Forall (fun e => is_event "start" e = false /\ is_event "error" e = false)
    events ->
  messages (run st events) = [].
Proof.
  intros M H. revert st M.
  induction H as [|e events [S R] _ IH]; intros st M; [done|].
  rewrite run_cons. apply IH.
  destruct (deliver_cases e st)
    as [(_ & _ & _ & _ & ->)|[[S' _]|[[_ (d & _ & ->)]|[[_ ->]|[R' _]]]]];
    try congruence; simpl; by rewrite M.
Qed.

(** X15.  Once a complete event has arrived, token events that follow
    it are dropped, however many: the transcript stays as the complete
    event left it. *)
Theorem tokens_after_complete_dropped (st : State) (c : jsstring)
    (events : list jsstring) :
  is_event "complete" c = true ->
  Forall (fun e => is_event "token" e = true) events ->
  messages (run (deliver st c) events) = messages (deliver st c).
Proof.
  intros C T. apply run_tokens_idle; [|done].
  unfold deliver. rewrite (onmessage_complete c st C). simpl.
  apply awaiting_tokens_complete_update.
Qed.

(** X16.  A Clear that the backend answers while a response is streaming
    loses the rest of it: until the next start or error event the
    transcript stays empty, whatever tokens arrive, while the streaming
    state of the component stays as it was at the Clear until a complete
    event arrives. *)
Theorem clear_drops_rest_of_answer (st : State) (status : N) (body : jsstring)
    (events : list jsstring) :
  Forall (fun e => is_event "start" e = false /\ is_event "error" e = false)
    events ->
  messages (run (clearChat (Response status body) st) events) = []
  /\ (Forall (fun e => is_event "complete" e = false) events ->
      isStreaming (run (clearChat (Response status body) st) events)
      = isStreaming st).
Proof.
  intros H. split; [by apply run_empty|].
  intros C. change (isStreaming st)
    with (isStreaming (clearChat (Response status body) st)).
  generalize (clearChat (Response status body) st). intros st0.
  revert st0. induction events as [|e events IH]; intros st0; [done|].
  apply Forall_cons in H as [[S R] H]. apply Forall_cons in C as [C0 C].
  rewrite run_cons, IH by done.
  destruct (deliver_cases e st0)
    as [(_ & _ & _ & _ & ->)|[[S' _]|[[_ (d & _ & ->)]|[[C' _]|[R' _]]]]];
    try congruence; done.
Qed.


End Lost.

(** ** The document panel *)

(** X18.  An upload that the backend accepts is followed by one list
    request, in that order; the snapshot is what that list returned, or
    the old one if the list failed; the status is [success] and success
    is notified even then; one timer of 3000 ms is set.  Only the first
    selected file is uploaded. *)
Theorem upload_accepted (file : File) (files : list File)
    (upload listing : fetch_result) (st : State) :
  accepted upload = true ->
  let st' := handleFileUpload (file :: files) upload listing st in
  requests st' = requests st ++ [POST_upload (name file); GET_documents]
  /\ documents st' = default (documents st) (listed listing)
  /\ uploadProgress st' = Some {| filename := name file; status := success |}
  /\ notices st'
     = notices st
       ++ [{| kind := notice_loading;
              text := str "Uploading " ++ name file ++ str "..." |}]
       ++ listing_notices listing
       ++ [{| kind := notice_success; text := str "File uploaded successfully!" |}]
  /\ timers st' = timers st ++ [3000%N].
Proof.
  intros A. cbv zeta.
  unfold handleFileUpload, fetchDocuments, listing_notices, listed. simpl.
  destruct upload as [|status body]; [done|]. simpl in A. rewrite A.
  destruct listing as [|status' body']; simpl;
    try destruct (Json.parse body'); simpl;
    rewrite <- ?app_assoc; done.
Qed.

(** X19.  An upload that fails, by the network or by a status outside
    200..299, issues no list request and leaves the snapshot as it was;
    the status is the error status, the failure is notified and one
    timer of 3000 ms is set. *)
Theorem upload_rejected (file : File) (files : list File)
    (upload listing : fetch_result) (st : State) :
  accepted upload = false ->
  let st' := handleFileUpload (file :: files) upload listing st in
  requests st' = requests st ++ [POST_upload (name file)]
  /\ documents st' = documents st
  /\ uploadProgress st' = Some {| filename := name file; status := failed |}
  /\ notices st'
     = notices st
       ++ [{| kind := notice_loading;
              text := str "Uploading " ++ name file ++ str "..." |};
           {| kind := notice_error; text := str "Upload failed!" |}]
  /\ timers st' = timers st ++ [3000%N].
Proof.
  intros A. cbv zeta. unfold handleFileUpload. simpl.
  destruct upload as [|status body]; simpl in *; rewrite ?A; simpl;
    by rewrite <- !app_assoc.
Qed.

(** X20.  A delete that the backend accepts is followed by one list
    request, in that order; the snapshot is what that list returned, or
    the old one, the deleted document included, if the list failed;
    success is notified even then. *)
Theorem delete_accepted (file_name : jsstring) (deletion listing : fetch_result)
    (st : State) :
  accepted deletion = true ->
  let st' := deleteDocument file_name deletion listing st in
  requests st' = requests st ++ [DELETE_documents file_name; GET_documents]
  /\ documents st' = default (documents st) (listed listing)
  /\ notices st'
     = notices st ++ listing_notices listing
       ++ [{| kind := notice_success; text := str "Document deleted successfully" |}].
Proof.
  intros A. cbv zeta.
  unfold deleteDocument, fetchDocuments, listing_notices, listed.
  destruct deletion as [|status body]; [done|]. simpl in A. rewrite A.
  destruct listing as [|status' body']; simpl;
    try destruct (Json.parse body'); simpl;
    rewrite <- ?app_assoc; done.
Qed.

(** X21.  A delete that fails, by the network or by a status outside
    200..299, issues no list request, leaves the snapshot as it was and
    notifies the failure once. *)
Theorem delete_rejected (file_name : jsstring) (deletion listing : fetch_result)
    (st : State) :
  accepted deletion = false ->
  let st' := deleteDocument file_name deletion listing st in
  requests st' = requests st ++ [DELETE_documents file_name]
  /\ documents st' = documents st
  /\ notices st'
     = notices st
       ++ [{| kind := notice_error; text := str "Failed to delete document" |}].
Proof.
  intros A. cbv zeta. unfold deleteDocument.
  destruct deletion as [|status body]; simpl in *; rewrite ?A; done.
Qed.

Section Panels.

Context {printer : NumberPrinter}.

(** X22.  The two panels do not touch each other's state.  An action of
    the document panel (refresh, upload, delete, the upload timer)
    leaves the transcript, the input, the connection and streaming
    states, the buffer and the channel alone; an action of the chat
    panel other than Clear (a message, a socket event, typing, a key,
    Send) leaves the snapshot and the upload status alone, issues no
    request and sets no timer. *)
Theorem panels_independent (a : action) (st : State) :
  (is_document_action a = true ->
   messages (step st a) = messages st
   /\ currentMessage (step st a) = currentMessage st
   /\ isConnected (step st a) = isConnected st
   /\ isStreaming (step st a) = isStreaming st
   /\ currentResponseRef (step st a) = currentResponseRef st
   /\ sent (step st a) = sent st)
  /\ (is_chat_action a = true ->
      documents (step st a) = documents st
      /\ uploadProgress (step st a) = uploadProgress st
      /\ requests (step st a) = requests st
      /\ timers (step st a) = timers st).
Proof.
  assert (documents (sendMessage st) = documents st
          /\ uploadProgress (sendMessage st) = uploadProgress st
          /\ requests (sendMessage st) = requests st
          /\ timers (sendMessage st) = timers st) as Send.
  { unfold sendMessage. by destruct (_ || _). }
  split; intros H; destruct a; try discriminate H; simpl; try done.
  - unfold fetchDocuments. destruct listing as [|status body]; simpl;
      try destruct (Json.parse body); done.
  - unfold handleFileUpload, fetchDocuments.
    destruct (files !! 0); simpl; [|done].
    destruct upload as [|status body]; simpl; [done|].
    destruct (ok status); simpl; [|done].
    destruct listing as [|status' body']; simpl;
      try destruct (Json.parse body'); done.
  - unfold deleteDocument, fetchDocuments.
    destruct deletion as [|status body]; simpl; [done|].
    destruct (ok status); simpl; [|done].
    destruct listing as [|status' body']; simpl;
      try destruct (Json.parse body'); done.
  - destruct (deliver_frame event_data st) as (_ & _ & D & U & _ & _ & R & T & _).
    done.
  - unfold handleKeyPress. by destruct (_ && _).
Qed.

End Panels.

(** ** The transcript over time *)

Section History.

Context {printer : NumberPrinter}.

Lemma run_app (st : State) (l1 l2 : list jsstring) :
  run st (l1 ++ l2) = run (run st l1) l2.
Proof. unfold run. apply foldl_app. Qed.

(** X23.  A whole answer: a start event, token events that carry the
    fragments f1 .. fN and a complete event leave one more entry, an
    assistant entry whose text is f1 ++ ... ++ fN and whose flag is off,
    and the streaming state of the component off. *)
Theorem answer_completed (st : State) (e0 c : jsstring) (es fs : list jsstring) :
  is_event "start" e0 = true ->
  Forall2 is_token es fs ->
  is_event "complete" c = true ->
  messages (run st (e0 :: es ++ [c]))
  = messages st ++ [Message.make assistant (VString (concat fs)) (Some false)]
  /\ isStreaming (run st (e0 :: es ++ [c])) = false.
Proof.
  intros S T C. rewrite run_cons, run_app.
  assert (deliver st e0 = on_start st) as ->.
  { unfold deliver. by rewrite (onmessage_start e0 st S). }
  destruct (run_tokens es fs T (on_start st) (messages st) eq_refl) as [M _].
  simpl in M. change (run ?s [c]) with (deliver s c).
  unfold deliver. rewrite (onmessage_complete c _ C). simpl.
  by rewrite M, complete_update_snoc.
Qed.

Lemma step_append_only (a : action) (st : State) :
  is_answered_clear a = false ->
  Message.type <$> messages st `prefix_of` Message.type <$> messages (step st a)
  /\ forall i m, messages st !! i = Some m -> is_assistant m = false ->
       messages (step st a) !! i = Some m.
Proof.
  intros C.
  assert (forall (l : list Message.t) (x : Message.t),
            Message.type <$> l `prefix_of` Message.type <$> (l ++ [x])
            /\ forall i m, l !! i = Some m -> is_assistant m = false ->
                 (l ++ [x]) !! i = Some m) as Grow.
  { intros l x. split.
    - rewrite fmap_app. by apply prefix_app_r.
    - intros i m L _. by apply lookup_app_l_Some. }
  assert (forall (l : list Message.t) (x y : Message.t),
            is_assistant x = true -> Message.type y = Message.type x ->
            Message.type <$> (l ++ [x]) `prefix_of` Message.type <$> (l ++ [y])
            /\ forall i m, (l ++ [x]) !! i = Some m -> is_assistant m = false ->
                 (l ++ [y]) !! i = Some m) as Swap.
  { intros l x y A T. split.
    - rewrite !fmap_app. simpl. by rewrite T.
    - intros i m L N. apply lookup_app_Some in L as [L|[G L]].
      + by apply lookup_app_l_Some.
      + apply list_lookup_singleton_Some in L as [_ <-]. congruence. }
  destruct (step_session a st) as [[e ->]|[_ H]].
  - simpl.
    destruct (deliver_messages e st) as [->|[[_ ->]|[[s ->]|[->|[d ->]]]]];
      [done|apply Grow| | |apply Grow].
    + destruct (messages st) as [|x l _] using rev_ind; [done|].
      rewrite token_update_snoc. destruct (is_assistant x && streaming x) eqn:A;
        [|done].
      apply andb_prop in A as [A _]. by apply Swap.
    + destruct (messages st) as [|x l _] using rev_ind; [done|].
      rewrite complete_update_snoc. destruct (is_assistant x) eqn:A; [|done].
      by apply Swap.
  - destruct H as [[-> _]|[(_ & -> & _)|(C' & _)]];
      [done|apply Grow|congruence].
Qed.

(** X24.  The transcript is append-only until a Clear is answered: the
    roles of the entries are kept in place, entries are only added at
    the end, and a user or error entry is never altered. *)
Theorem transcript_append_only (st : State) (actions : list action) :
  Forall (fun a => is_answered_clear a = false) actions ->
  Message.type <$> messages st
    `prefix_of` Message.type <$> messages (steps st actions)
  /\ forall i m, messages st !! i = Some m -> is_assistant m = false ->
       messages (steps st actions) !! i = Some m.
Proof.
  intros H. revert st. induction H as [|a actions C _ IH]; intros st; [done|].
  rewrite steps_cons. destruct (step_append_only a st C) as [P1 K1].
  destruct (IH (step st a)) as [P2 K2]. split; [by etrans|].
  intros i m L N. apply K2; [|done]. by apply K1.
Qed.

Lemma user_texts_snoc (l : list Message.t) (m : Message.t) :
  user_texts (l ++ [m]) = user_texts l ++ user_texts [m].
Proof. unfold user_texts. apply omap_app. Qed.

Lemma user_texts_assistant (m : Message.t) :
  is_assistant m = true -> user_texts [m] = [].
Proof.
  unfold is_assistant, user_texts, user_text. simpl.
  by destruct (Message.type m).
Qed.

Lemma user_texts_deliver (e : jsstring) (st : State) :
  user_texts (messages (deliver st e)) = user_texts (messages st).
Proof.
  destruct (deliver_messages e st) as [->|[[_ ->]|[[s ->]|[->|[d ->]]]]];
    [done| | | |].
  - rewrite user_texts_snoc. simpl. apply app_nil_r.
  - destruct (messages st) as [|x l _] using rev_ind; [done|].
    rewrite token_update_snoc. destruct (is_assistant x && streaming x) eqn:A;
      [|done].
    apply andb_prop in A as [A _].
    by rewrite !user_texts_snoc, !user_texts_assistant.
  - destruct (messages st) as [|x l _] using rev_ind; [done|].
    rewrite complete_update_snoc. destruct (is_assistant x) eqn:A; [|done].
    by rewrite !user_texts_snoc, !user_texts_assistant.
  - rewrite user_texts_snoc. simpl. apply app_nil_r.
Qed.

Lemma step_sent (a : action) (st : State) :
  is_answered_clear a = false ->
  sent st = stringify_message <$> user_texts (messages st) ->
  sent (step st a) = stringify_message <$> user_texts (messages (step st a)).
Proof.
  intros C I.
  assert (forall st', st' = sendMessage st ->
            sent st' = stringify_message <$> user_texts (messages st')) as Send.
  { intros st' ->. destruct (send_disabled st) eqn:D.
    - by rewrite (send_disabled_rejects st D).
    - rewrite (send_enabled_accepts st D). simpl.
      by rewrite user_texts_snoc, fmap_app, I. }
  destruct a as [created listing|e| | | |input|k| |r|listing|files upload listing
                |f deletion listing|t|]; simpl; try done.
  - unfold mount, connectWebSocket, fetchDocuments.
    destruct created, listing as [|status body]; simpl;
      try destruct (Json.parse body); done.
  - rewrite user_texts_deliver.
    destruct (deliver_frame e st) as (_ & _ & _ & _ & _ & -> & _). done.
  - unfold handleKeyPress.
    destruct (JsString.eqb (key k) (str "Enter") && negb (shiftKey k)); simpl;
      [by apply Send|done].
  - by apply Send.
  - destruct r as [|status body]; [done|discriminate C].
  - unfold fetchDocuments. destruct listing as [|status body]; simpl;
      try destruct (Json.parse body); done.
  - unfold handleFileUpload, fetchDocuments.
    destruct (files !! 0); simpl; [|done].
    destruct upload as [|status body]; simpl; [done|].
    destruct (ok status); simpl; [|done].
    destruct listing as [|status' body']; simpl;
      try destruct (Json.parse body'); done.
  - unfold deleteDocument, fetchDocuments.
    destruct deletion as [|status body]; simpl; [done|].
    destruct (ok status); simpl; [|done].
    destruct listing as [|status' body']; simpl;
      try destruct (Json.parse body'); done.
Qed.

(** X25.  Until a Clear is answered, the transcript and the channel
    agree: the envelopes handed to the channel are, in order, those of
    the texts of the user entries of the transcript, one for one. *)
Theorem sent_matches_transcript (st : State) (actions : list action) :
  Forall (fun a => is_answered_clear a = false) actions ->
  sent st = stringify_message <$> user_texts (messages st) ->
  sent (steps st actions)
  = stringify_message <$> user_texts (messages (steps st actions)).
Proof.
  intros H. revert st. induction H as [|a actions C _ IH]; intros st I; [done|].
  rewrite steps_cons. by apply IH, step_sent.
Qed.

End History.

(** ** The claims on concrete runs *)

#[local] Existing Instance literal_printer.

(** The transcript and the buffer hold the rest of an earlier answer;
    start and three tokens arrive. *)
Lemma start_then_tokens_witness :
  let st := setCurrentResponse (str "stale")
              (setMessages (fun _ => [Message.make user (VString (str "Summarize doc")) None])
                 (onopen initial)) in
  let tokens := [envelope "token" (Some (str "The "));
                 envelope "token" (Some (str "doc "));
                 envelope "token" (Some (str "says..."))] in
  is_event "start" (envelope "start" None) = true
  /\ Forall2 is_token tokens [str "The "; str "doc "; str "says..."]
  /\ messages (run st (envelope "start" None :: tokens))
     = [Message.make user (VString (str "Summarize doc")) None;
        Message.make assistant (VString (str "The doc says...")) (Some true)].
Proof.
  cbv zeta.
  assert (is_event "start" (envelope "start" None) = true) as S
    by (vm_compute; reflexivity).
  assert (Forall2 is_token
            [envelope "token" (Some (str "The "));
             envelope "token" (Some (str "doc "));
             envelope "token" (Some (str "says..."))]
            [str "The "; str "doc "; str "says..."]) as T
    by (repeat constructor; vm_compute; reflexivity).
  split; [exact S|]. split; [exact T|].
  exact (proj1 (proj2 (start_then_tokens _ _ _ _ S T))).
Defined.

Lemma complete_alters_only_flag_witness :
  let st := run initial [envelope "start" None;
                         envelope "token" (Some (str "The "))] in
  is_event "complete" (envelope "complete" None) = true
  /\ length (messages (deliver st (envelope "complete" None)))
     = length (messages st).
Proof.
  cbv zeta.
  assert (is_event "complete" (envelope "complete" None) = true) as C
    by (vm_compute; reflexivity).
  split; [exact C|].
  exact (proj1 (complete_alters_only_flag _ _ C)).
Defined.

(** A token arrives after the answer was completed. *)
Lemma token_without_stream_witness :
  let st := run initial [envelope "start" None;
                         envelope "token" (Some (str "The "));
                         envelope "complete" None] in
  is_event "token" (envelope "token" (Some (str "late"))) = true
  /\ awaiting_tokens (messages st) = false
  /\ messages (deliver st (envelope "token" (Some (str "late"))))
     = messages st.
Proof.
  cbv zeta.
  assert (is_event "token" (envelope "token" (Some (str "late"))) = true) as T
    by (vm_compute; reflexivity).
  split; [exact T|]. split; [vm_compute; reflexivity|].
  apply (token_without_stream _ _ T). vm_compute. reflexivity.
Defined.

Lemma malformed_payload_throws_witness :
  Json.parse (str "{oops") = None
  /\ onmessage (str "{oops") initial = (Throw SyntaxError, initial).
Proof.
  assert (Json.parse (str "{oops") = None) as P by (vm_compute; reflexivity).
  split; [exact P|]. exact (malformed_payload_throws _ _ P).
Defined.

(** C2 (the claim as stated fails).  Whatever the printing of numbers,
    the handler does not return normally on the payload [{oops]. *)
Lemma malformed_payload_not_silent :
  ~ (exists printer : NumberPrinter,
       fst (@onmessage printer (str "{oops") initial) = Normal).
Proof. intros [printer H]. vm_compute in H. discriminate. Qed.

(** An answer, an error event between two answers, a second answer. *)
Lemma streaming_entry_unique_witness :
  let events := [envelope "start" None;
                 envelope "token" (Some (str "The "));
                 envelope "complete" None;
                 envelope "error" (Some (str "backend down"));
                 envelope "start" None;
                 envelope "token" (Some (str "Again"))] in
  one_streaming_last (messages initial)
  /\ starts_when_idle initial events = true
  /\ one_streaming_last (messages (run initial (take 5 events))).
Proof.
  cbv zeta. split; [exact one_streaming_last_nil|].
  split; [vm_compute; reflexivity|].
  apply streaming_entry_unique; [exact one_streaming_last_nil|].
  vm_compute. reflexivity.
Defined.

(** C1 (the claim as stated fails).  Whatever the printing of numbers,
    after two start events in a row two entries are streaming. *)
Lemma start_twice_two_streaming :
  ~ (exists printer : NumberPrinter,
       one_streaming_last
         (messages (@run printer initial
                      [envelope "start" None; envelope "start" None]))).
Proof. intros [printer [H _]]. vm_compute in H. lia. Qed.

Lemma send_gate_witness :
  let down := setCurrentMessage (str "Summarize doc") initial in
  let ready := setCurrentMessage (str " Summarize doc ") (onopen initial) in
  sendMessage down = down
  /\ messages (sendMessage ready)
     = [Message.make user (VString (str " Summarize doc ")) None]
  /\ sent (sendMessage ready) = [stringify_message (str " Summarize doc ")].
Proof.
  cbv zeta. split.
  - apply (proj1 (send_gate _)). left. reflexivity.
  - destruct (proj2 (send_gate (setCurrentMessage (str " Summarize doc ")
                                  (onopen initial)))) as (M & S & _).
    + reflexivity.
    + reflexivity.
    + vm_compute. discriminate.
    + split; [exact M|exact S].
Defined.

(** The backend answers the reset request with status 500. *)
Lemma clearChat_ignores_status_witness :
  let st := setMessages (fun _ => [Message.make user (VString (str "hi")) None])
              (onopen initial) in
  ok 500 = false
  /\ messages (clearChat (Response 500 (str "Internal Server Error")) st) = [].
Proof.
  cbv zeta. split; [reflexivity|].
  apply (clearChat_ignores_status 500 (str "Internal Server Error")).
  reflexivity.
Defined.

(** The backend answers the list request with status 500 and the body
    [{ detail: ... }]. *)
Lemma fetchDocuments_ignores_status_witness :
  let body := str "{" ++ quote (str "detail") ++ str ":"
              ++ quote (str "Internal Server Error") ++ str "}" in
  let docs := VObject [(str "detail", VString (str "Internal Server Error"))] in
  let st := setDocuments
              (VArray [VObject [(str "filename", VString (str "report.txt"))]])
              initial in
  ok 500 = false
  /\ Json.parse body = Some docs
  /\ documents (fetchDocuments (Response 500 body) st) = docs
  /\ notices (fetchDocuments (Response 500 body) st) = [].
Proof.
  cbv zeta. split; [reflexivity|]. split; [vm_compute; reflexivity|].
  apply fetchDocuments_ignores_status; [reflexivity|vm_compute; reflexivity].
Defined.

(** ** The model on small inputs *)

Example parse_token_envelope :
  Json.parse (envelope "token" (Some (str "The ")))
  = Some (VObject [(str "type", VString (str "token"));
                   (str "data", VString (str "The "))]).
Proof. vm_compute. reflexivity. Qed.

Example parse_nested :
  Json.parse (str " [1, -2.5e-3, true, null, {}, []] ")
  = Some (VArray [VNumber (str "1"); VNumber (str "-2.5e-3"); VBool true;
                  VNull; VObject []; VArray []]).
Proof. vm_compute. reflexivity. Qed.

Example parse_escapes :
  Json.parse ([34%N] ++ str "A\n\/" ++ [34%N]) = Some (VString [65; 10; 47]%N).
Proof. vm_compute. reflexivity. Qed.

Example parse_rejects :
  Json.parse (str "01") = None /\ Json.parse (str "[1,]") = None
  /\ Json.parse (str "1.") = None /\ Json.parse (str "") = None
  /\ Json.parse (str "{type:1}") = None /\ Json.parse (str "nul") = None
  /\ Json.parse (str "[object Blob]") = None.
Proof. vm_compute. repeat split. Qed.

Example later_member_wins :
  (Json.parse (str "{" ++ quote (str "a") ++ str ":1," ++ quote (str "a")
               ++ str ":2}")
   ≫= λ data, get data (str "a"))
  = Some (VNumber (str "2")).
Proof. vm_compute. reflexivity. Qed.

Example trim_spaces :
  trim (str "  a b  ") = str "a b" /\ trim [160; 97; 8232; 10]%N = [97%N]
  /\ trim (str "   ") = [].
Proof. vm_compute. repeat split. Qed.

Example quote_escapes :
  quote [34; 10; 31; 55357; 97; 55357; 56832]%N
  = [34%N] ++ str "\" ++ [34%N] ++ str "\n\u001f\ud83da" ++ [55357; 56832; 34]%N.
Proof. vm_compute. reflexivity. Qed.

Example to_string_array :
  to_string (VArray [VNull; VString (str "a"); VArray [VBool true; VUndefined];
                     VObject []; VNumber (str "7")])
  = str ",a,true,,[object Object],7".
Proof. vm_compute. reflexivity. Qed.

(** The user connects and sends a question; start, three tokens and
    complete arrive. *)
Example conversation :
  let st := sendMessage (setCurrentMessage (str "Summarize doc") (onopen initial)) in
  let st := run st [envelope "start" None;
                    envelope "token" (Some (str "The "));
                    envelope "token" (Some (str "doc "));
                    envelope "token" (Some (str "says..."));
                    envelope "complete" None] in
  messages st
  = [Message.make user (VString (str "Summarize doc")) None;
     Message.make assistant (VString (str "The doc says...")) (Some false)]
  /\ isStreaming st = false
  /\ sent st = [stringify_message (str "Summarize doc")].
Proof. vm_compute. repeat split. Qed.

(** An error event in the middle of an answer, then the next answer:
    the first entry is still flagged when the second one starts. *)
Example error_mid_stream :
  let st := run (onopen initial)
              [envelope "start" None;
               envelope "token" (Some (str "The "));
               envelope "error" (Some (str "backend down"));
               envelope "start" None] in
  messages st
  = [Message.make assistant (VString (str "The ")) (Some true);
     Message.make error (VString (str "backend down")) None;
     Message.make assistant (VString []) (Some true)].
Proof. vm_compute. reflexivity. Qed.

(** ** The further properties on concrete runs *)

Lemma buffer_shown_initial : buffer_shown initial.
Proof. intros m L. discriminate L. Qed.

Lemma flag_has_entry_initial : flag_has_entry initial.
Proof. intros S. discriminate S. Qed.

(** The number 42 and an envelope of a type the handler does not know. *)
Lemma non_envelope_ignored_witness :
  Json.parse (envelope "ping" None)
  = Some (VObject [(str "type", VString (str "ping"))])
  /\ onmessage (str "42") initial = (Normal, initial)
  /\ onmessage (envelope "ping" None) (onopen initial)
     = (Normal, onopen initial).
Proof.
  assert (Json.parse (envelope "ping" None)
          = Some (VObject [(str "type", VString (str "ping"))])) as P
    by (vm_compute; reflexivity).
  split; [exact P|]. split.
  - apply (non_envelope_ignored (str "42") initial (VNumber (str "42")));
      vm_compute; (reflexivity || discriminate).
  - apply (non_envelope_ignored _ _ _ P); vm_compute;
      (reflexivity || discriminate).
Defined.

Lemma error_appends_witness :
  is_event "error" (envelope "error" (Some (str "backend down"))) = true
  /\ exists d,
       envelope_data (envelope "error" (Some (str "backend down"))) = Some d
       /\ messages (deliver initial (envelope "error" (Some (str "backend down"))))
          = [Message.make error d None].
Proof.
  assert (is_event "error" (envelope "error" (Some (str "backend down"))) = true)
    as E by (vm_compute; reflexivity).
  split; [exact E|].
  destruct (error_appends _ initial E) as (d & D & M & _).
  exists d. split; [exact D|exact M].
Defined.


Lemma handleKeyPress_gate_witness :
  let ready := setCurrentMessage (str "Summarize doc") (onopen initial) in
  snd (handleKeyPress {| key := str "Enter"; shiftKey := false |} ready)
  = sendMessage ready.
Proof.
  cbv zeta.
  apply (proj2 (proj2 (handleKeyPress_gate
                         {| key := str "Enter"; shiftKey := false |}
                         (setCurrentMessage (str "Summarize doc") (onopen initial)))));
    reflexivity.
Defined.

Lemma send_does_not_wait_witness :
  let st := setCurrentMessage (str "first") (onopen initial) in
  send_disabled st = false
  /\ all_white_space (str "second") = false
  /\ sent (sendMessage (setCurrentMessage (str "second") (sendMessage st)))
     = [stringify_message (str "first"); stringify_message (str "second")].
Proof.
  cbv zeta.
  assert (send_disabled (setCurrentMessage (str "first") (onopen initial)) = false)
    as D by (vm_compute; reflexivity).
  assert (all_white_space (str "second") = false) as W
    by (vm_compute; reflexivity).
  split; [exact D|]. split; [exact W|].
  exact (proj1 (proj2 (send_does_not_wait _ (str "second") D W))).
Defined.

(** A session: mount, the socket opens, a question is typed and sent
    with Enter, an answer streams while the documents are refreshed, the
    socket closes. *)
Lemma buffer_shown_steps_witness :
  buffer_shown initial
  /\ buffer_shown
       (steps initial
          [Mount true (Response 200 (str "[]")); SocketOpen;
           Typing (str "Summarize doc");
           KeyPress {| key := str "Enter"; shiftKey := false |};
           Inbound (envelope "start" None);
           Inbound (envelope "token" (Some (str "The ")));
           ClickRefresh NetworkError;
           Inbound (envelope "token" (Some (str "doc ")))]).
Proof.
  split; [exact buffer_shown_initial|].
  apply buffer_shown_steps. exact buffer_shown_initial.
Defined.

Lemma flag_has_entry_steps_witness :
  let actions :=
    [Mount true (Response 200 (str "[]")); SocketOpen;
     Typing (str "Summarize doc"); ClickSend;
     Inbound (envelope "start" None);
     ClickClear NetworkError;
     Inbound (envelope "token" (Some (str "The ")))] in
  Forall (fun a => is_answered_clear a = false) actions
  /\ flag_has_entry initial
  /\ flag_has_entry (steps initial actions).
Proof.
  cbv zeta.
  assert (Forall (fun a => is_answered_clear a = false)
            [Mount true (Response 200 (str "[]")); SocketOpen;
             Typing (str "Summarize doc"); ClickSend;
             Inbound (envelope "start" None);
             ClickClear NetworkError;
             Inbound (envelope "token" (Some (str "The ")))]) as C
    by (repeat constructor).
  split; [exact C|]. split; [exact flag_has_entry_initial|].
  exact (flag_has_entry_steps _ _ C flag_has_entry_initial).
Defined.

Lemma entry_shaped_steps_witness :
  let actions :=
    [SocketOpen; Typing (str "Summarize doc"); ClickSend;
     Inbound (envelope "start" None);
     Inbound (envelope "token" (Some (str "The ")));
     Inbound (envelope "error" None)] in
  Forall (fun m => entry_shaped m = true) (messages initial)
  /\ Forall (fun m => entry_shaped m = true) (messages (steps initial actions)).
Proof.
  cbv zeta.
  assert (Forall (fun m => entry_shaped m = true) (messages initial)) as F
    by constructor.
  split; [exact F|]. exact (proj1 (entry_shaped_steps _ _ F)).
Defined.

(** The socket was never opened: typing and sending hand nothing to the
    channel. *)
Lemma disconnected_sends_nothing_witness :
  let actions :=
    [Mount false NetworkError; Typing (str "Summarize doc"); ClickSend;
     KeyPress {| key := str "Enter"; shiftKey := false |};
     SocketError; SocketClose] in
  isConnected initial = false
  /\ Forall (fun a => is_socket_open a = false) actions
  /\ sent (steps initial actions) = [].
Proof.
  cbv zeta.
  assert (Forall (fun a => is_socket_open a = false)
            [Mount false NetworkError; Typing (str "Summarize doc"); ClickSend;
             KeyPress {| key := str "Enter"; shiftKey := false |};
             SocketError; SocketClose]) as O by (repeat constructor).
  split; [reflexivity|]. split; [exact O|].
  exact (proj2 (disconnected_sends_nothing initial _ eq_refl O)).
Defined.

Lemma tokens_after_complete_dropped_witness :
  let st := run initial [envelope "start" None;
                         envelope "token" (Some (str "The "))] in
  let late := [envelope "token" (Some (str "doc "));
               envelope "token" (Some (str "says..."))] in
  is_event "complete" (envelope "complete" None) = true
  /\ Forall (fun e => is_event "token" e = true) late
  /\ messages (run (deliver st (envelope "complete" None)) late)
     = [Message.make assistant (VString (str "The ")) (Some false)].
Proof.
  cbv zeta.
  assert (is_event "complete" (envelope "complete" None) = true) as C
    by (vm_compute; reflexivity).
  assert (Forall (fun e => is_event "token" e = true)
            [envelope "token" (Some (str "doc "));
             envelope "token" (Some (str "says..."))]) as T
    by (repeat constructor; vm_compute; reflexivity).
  split; [exact C|]. split; [exact T|].
  rewrite (tokens_after_complete_dropped _ _ _ C T). vm_compute. reflexivity.
Defined.

(** Clear is clicked and answered while an answer streams. *)
Lemma clear_drops_rest_of_answer_witness :
  let st := run (onopen initial) [envelope "start" None;
                                  envelope "token" (Some (str "The "))] in
  let rest := [envelope "token" (Some (str "doc "));
               envelope "token" (Some (str "says..."))] in
  Forall (fun e => is_event "start" e = false /\ is_event "error" e = false) rest
  /\ messages (run (clearChat (Response 200 (str "{}")) st) rest) = []
  /\ isStreaming (run (clearChat (Response 200 (str "{}")) st) rest) = true.
Proof.
  cbv zeta.
  assert (Forall (fun e => is_event "start" e = false /\ is_event "error" e = false)
            [envelope "token" (Some (str "doc "));
             envelope "token" (Some (str "says..."))]) as R
    by (repeat constructor; vm_compute; reflexivity).
  split; [exact R|].
  destruct (clear_drops_rest_of_answer
              (run (onopen initial) [envelope "start" None;
                                     envelope "token" (Some (str "The "))])
              200 (str "{}") _ R) as [M S].
  split; [exact M|]. rewrite S; [vm_compute; reflexivity|].
  repeat constructor; vm_compute; reflexivity.
Defined.


Lemma upload_accepted_witness :
  let files := [{| name := str "report.txt" |}; {| name := str "other.csv" |}] in
  accepted (Response 200 (str "{}")) = true
  /\ requests (handleFileUpload files (Response 200 (str "{}")) NetworkError initial)
     = [POST_upload (str "report.txt"); GET_documents]
  /\ documents (handleFileUpload files (Response 200 (str "{}")) NetworkError initial)
     = VArray [].
Proof.
  cbv zeta.
  assert (accepted (Response 200 (str "{}")) = true) as A by reflexivity.
  split; [exact A|].
  destruct (upload_accepted {| name := str "report.txt" |}
              [{| name := str "other.csv" |}]
              (Response 200 (str "{}")) NetworkError initial A)
    as (R & D & _).
  split; [exact R|exact D].
Defined.

Lemma upload_rejected_witness :
  accepted (Response 413 (str "too large")) = false
  /\ requests (handleFileUpload [{| name := str "report.txt" |}]
                 (Response 413 (str "too large")) (Response 200 (str "[]")) initial)
     = [POST_upload (str "report.txt")]
  /\ uploadProgress (handleFileUpload [{| name := str "report.txt" |}]
                       (Response 413 (str "too large")) (Response 200 (str "[]"))
                       initial)
     = Some {| filename := str "report.txt"; status := failed |}.
Proof.
  assert (accepted (Response 413 (str "too large")) = false) as A by reflexivity.
  split; [exact A|].
  destruct (upload_rejected {| name := str "report.txt" |} []
              (Response 413 (str "too large")) (Response 200 (str "[]"))
              initial A)
    as (R & _ & U & _).
  split; [exact R|exact U].
Defined.

(** The delete is accepted and the list that follows fails: the snapshot
    still holds the document. *)
Lemma delete_accepted_witness :
  let st := setDocuments
              (VArray [VObject [(str "filename", VString (str "report.txt"))]])
              initial in
  accepted (Response 200 (str "{}")) = true
  /\ documents (deleteDocument (str "report.txt") (Response 200 (str "{}"))
                  NetworkError st)
     = VArray [VObject [(str "filename", VString (str "report.txt"))]]
  /\ notices (deleteDocument (str "report.txt") (Response 200 (str "{}"))
                NetworkError st)
     = [{| kind := notice_error; text := str "Failed to fetch documents" |};
        {| kind := notice_success; text := str "Document deleted successfully" |}].
Proof.
  cbv zeta.
  assert (accepted (Response 200 (str "{}")) = true) as A by reflexivity.
  split; [exact A|].
  destruct (delete_accepted (str "report.txt") (Response 200 (str "{}"))
              NetworkError
              (setDocuments
                 (VArray [VObject [(str "filename", VString (str "report.txt"))]])
                 initial) A)
    as (_ & D & N).
  split; [exact D|exact N].
Defined.

Lemma delete_rejected_witness :
  let st := setDocuments
              (VArray [VObject [(str "filename", VString (str "report.txt"))]])
              initial in
  accepted (Response 500 (str "Internal Server Error")) = false
  /\ documents (deleteDocument (str "report.txt")
                  (Response 500 (str "Internal Server Error"))
                  (Response 200 (str "[]")) st)
     = documents st
  /\ notices (deleteDocument (str "report.txt")
                (Response 500 (str "Internal Server Error"))
                (Response 200 (str "[]")) st)
     = [{| kind := notice_error; text := str "Failed to delete document" |}].
Proof.
  cbv zeta.
  assert (accepted (Response 500 (str "Internal Server Error")) = false) as A
    by reflexivity.
  split; [exact A|].
  destruct (delete_rejected (str "report.txt")
              (Response 500 (str "Internal Server Error"))
              (Response 200 (str "[]"))
              (setDocuments
                 (VArray [VObject [(str "filename", VString (str "report.txt"))]])
                 initial) A)
    as (_ & D & N).
  split; [exact D|exact N].
Defined.

Lemma panels_independent_witness :
  let st := run (onopen initial) [envelope "start" None] in
  messages (step st (ClickDelete (str "report.txt") NetworkError NetworkError))
  = messages st
  /\ documents (step st (Inbound (envelope "token" (Some (str "The ")))))
     = documents st.
Proof.
  cbv zeta. split.
  - apply (proj1 (panels_independent
                    (ClickDelete (str "report.txt") NetworkError NetworkError) _)).
    reflexivity.
  - apply (proj2 (panels_independent
                    (Inbound (envelope "token" (Some (str "The ")))) _)).
    reflexivity.
Defined.

Lemma answer_completed_witness :
  let tokens := [envelope "token" (Some (str "The "));
                 envelope "token" (Some (str "doc "));
                 envelope "token" (Some (str "says..."))] in
  is_event "start" (envelope "start" None) = true
  /\ Forall2 is_token tokens [str "The "; str "doc "; str "says..."]
  /\ is_event "complete" (envelope "complete" None) = true
  /\ messages (run initial (envelope "start" None
                            :: tokens ++ [envelope "complete" None]))
     = [Message.make assistant (VString (str "The doc says...")) (Some false)].
Proof.
  cbv zeta.
  assert (is_event "start" (envelope "start" None) = true) as S
    by (vm_compute; reflexivity).
  assert (Forall2 is_token
            [envelope "token" (Some (str "The "));
             envelope "token" (Some (str "doc "));
             envelope "token" (Some (str "says..."))]
            [str "The "; str "doc "; str "says..."]) as T
    by (repeat constructor; vm_compute; reflexivity).
  assert (is_event "complete" (envelope "complete" None) = true) as C
    by (vm_compute; reflexivity).
  split; [exact S|]. split; [exact T|]. split; [exact C|].
  exact (proj1 (answer_completed initial _ _ _ _ S T C)).
Defined.

Lemma transcript_append_only_witness :
  let st := sendMessage (setCurrentMessage (str "Summarize doc") (onopen initial)) in
  let actions :=
    [Inbound (envelope "start" None);
     Inbound (envelope "token" (Some (str "The ")));
     Inbound (envelope "error" (Some (str "backend down")));
     Typing (str "again"); ClickSend] in
  Forall (fun a => is_answered_clear a = false) actions
  /\ messages (steps st actions) !! 0
     = Some (Message.make user (VString (str "Summarize doc")) None).
Proof.
  cbv zeta.
  assert (Forall (fun a => is_answered_clear a = false)
            [Inbound (envelope "start" None);
             Inbound (envelope "token" (Some (str "The ")));
             Inbound (envelope "error" (Some (str "backend down")));
             Typing (str "again"); ClickSend]) as C by (repeat constructor).
  split; [exact C|].
  apply (proj2 (transcript_append_only _ _ C)); reflexivity.
Defined.

Lemma sent_matches_transcript_witness :
  let actions :=
    [SocketOpen; Typing (str "Summarize doc"); ClickSend;
     Inbound (envelope "start" None);
     Inbound (envelope "complete" None);
     Typing (str "again");
     KeyPress {| key := str "Enter"; shiftKey := false |}] in
  Forall (fun a => is_answered_clear a = false) actions
  /\ sent initial = stringify_message <$> user_texts (messages initial)
  /\ sent (steps initial actions)
     = stringify_message <$> user_texts (messages (steps initial actions)).
Proof.
  cbv zeta.
  assert (Forall (fun a => is_answered_clear a = false)
            [SocketOpen; Typing (str "Summarize doc"); ClickSend;
             Inbound (envelope "start" None);
             Inbound (envelope "complete" None);
             Typing (str "again");
             KeyPress {| key := str "Enter"; shiftKey := false |}]) as C
    by (repeat constructor).
  split; [exact C|]. split; [reflexivity|].
  exact (sent_matches_transcript initial _ C eq_refl).
Defined.
